(** * Coffee_Dataset_Analysis: the data-cleaning helpers and the dashboard's
    count summaries, embedded from [data_cleaning_functions.py] and
    [dash2.py].

    The Python code works on pandas objects.  A [DataFrame] is modelled by its
    number of rows and its ordered, labelled columns; the pandas operations the
    code calls ([df[...]], [apply(axis=1)], [df[name] = ...], [drop],
    [isnull], [mean], [value_counts], [reset_index]) are modelled in
    [Module Pandas] after their documented behaviour, and the Python string
    methods in [Module PyStr].  DataFrames are objects: the heap of the
    [world] maps references to tables, so that [df[name] = ...] is seen by
    every holder of the reference, whereas [drop] and [df[mask]] build new
    objects.  The conversions dash2.py applies to two columns when it loads
    the file are not modelled: the functions take the loaded table as it is. *)

From Stdlib Require Import ZArith String Ascii List Lia.
From Stdlib Require Import Floats.SpecFloat.
From stdpp Require Import base decidable option list sorting gmap strings pretty.

Local Open Scope string_scope.
Local Open Scope list_scope.
Local Open Scope nat_scope.

(** ** Python strings *)

Module PyStr.

(** [str.isspace] on the ASCII range: tab, line feed, vertical tab, form
    feed, carriage return, the four separators 0x1c-0x1f and the space. *)
Definition isspace (a : ascii) : bool :=
  let n := nat_of_ascii a in
  ((9 <=? n)%nat && (n <=? 13)%nat) || ((28 <=? n)%nat && (n <=? 32)%nat).

Fixpoint lstrip (s : string) : string :=
  match s with
  | EmptyString => EmptyString
  | String a s' => if isspace a then lstrip s' else s
  end.

Fixpoint rstrip (s : string) : string :=
  match s with
  | EmptyString => EmptyString
  | String a s' =>
      match rstrip s' with
      | EmptyString => if isspace a then EmptyString else String a EmptyString
      | r => String a r
      end
  end.

(** [s.strip()] *)
Definition strip (s : string) : string := rstrip (lstrip s).

(** [s.split(c)] for a one-character separator: never the empty list. *)
Fixpoint split (c : ascii) (s : string) : list string :=
  match s with
  | EmptyString => [EmptyString]
  | String a s' =>
      if Ascii.eqb a c then EmptyString :: split c s'
      else match split c s' with
           | h :: t => String a h :: t
           | [] => [String a EmptyString]
           end
  end.

(** [s.replace(c, '')] for a one-character [c]. *)
Fixpoint remove (c : ascii) (s : string) : string :=
  match s with
  | EmptyString => EmptyString
  | String a s' => if Ascii.eqb a c then remove c s' else String a (remove c s')
  end.

(** [sep.join(l)] *)
Fixpoint join (sep : string) (l : list string) : string :=
  match l with
  | [] => EmptyString
  | [x] => x
  | x :: l' => String.append x (String.append sep (join sep l'))
  end.

(** Truth value of a string: [bool(s)]. *)
Definition truthy (s : string) : bool :=
  match s with EmptyString => false | _ => true end.

End PyStr.

(** ** Cell values *)

(** A cell holds a boolean, a string, a number or a missing value ([NaN] or
    [None]).  Numbers are modelled by integers: the code only compares them
    with [True] and with the selected filter value. *)
Inductive value : Type :=
  | VBool (b : bool)
  | VStr (s : string)
  | VNum (z : Z)
  | VMissing.

#[global] Instance value_eq_dec : EqDecision value.
Proof. solve_decision. Defined.

(** The number a value stands for in a Python comparison ([True == 1]). *)
Definition as_number (v : value) : option Z :=
  match v with
  | VBool b => Some (if b then 1 else 0)%Z
  | VNum z => Some z
  | _ => None
  end.

(** [a == b] on cells, as the element-wise comparison of a Series gives it:
    a missing value equals nothing. *)
Definition py_eq (a b : value) : bool :=
  match a, b with
  | VStr s, VStr s' => bool_decide (s = s')
  | VMissing, _ | _, VMissing => false
  | _, _ =>
      match as_number a, as_number b with
      | Some x, Some y => bool_decide (x = y)
      | _, _ => false
      end
  end.

(** [str(v)] *)
Definition py_str (v : value) : string :=
  match v with
  | VBool true => "True"
  | VBool false => "False"
  | VStr s => s
  | VNum z => pretty z
  | VMissing => "nan"
  end.

(** [pd.isnull] on one cell: [NaN] and [None] are missing, an empty string
    is not. *)
Definition is_missing (v : value) : bool :=
  match v with VMissing => true | _ => false end.

(** ** Binary64 numbers ([numpy.float64], Python [float]) *)

Module F64.
Definition float := spec_float.
Definition prec : Z := 53.
Definition emax : Z := 1024.

Definition of_nat (n : nat) : float := binary_normalize prec emax (Z.of_nat n) 0 false.
Definition div (x y : float) : float := SFdiv prec emax x y.
Definition nan : float := S754_nan.
(** [x > y] *)
Definition gt (x y : float) : bool := SFltb y x.

(** The literals [0.9] and [0.8]: the doubles nearest to 9/10 and 8/10. *)
Definition lit_0_9 : float := S754_finite false 8106479329266893 (-53).
Definition lit_0_8 : float := S754_finite false 7205759403792794 (-53).
End F64.

(** ** Tables *)

(** A DataFrame: the length of its row index and its columns in order, each a
    label with the cells of the column from the first row to the last. *)
Record DataFrame : Type := mkDataFrame {
  n_rows : nat;
  series : list (string * list value)
}.

(** [df.columns] *)
Definition columns (df : DataFrame) : list string := (series df).*1.

(** Every column has one cell per row. *)
Definition wf_frame (df : DataFrame) : Prop :=
  Forall (λ c, length c.2 = n_rows df) (series df).

(** The cell of column [label] in row [i] (missing outside the table). *)
Definition cell (df : DataFrame) (label : string) (i : nat) : value :=
  match filter (λ c, c.1 = label) (series df) with
  | c :: _ => nth i c.2 VMissing
  | [] => VMissing
  end.

(** ** Objects, exceptions and output *)

Definition loc := positive.

Inductive exn : Type :=
  | KeyError (missing : list string)
  | ValueError (msg : string)
  | NoObject (r : loc).  (* a reference to no object: Python has none *)

Inductive outcome (A : Type) : Type :=
  | Returned (a : A)
  | Raised (e : exn).
Arguments Returned {A} a.
Arguments Raised {A} e.

(** What [print] wrote: the line [Columns dropped: [...]] is determined by
    the list it formats. *)
Inductive event : Type :=
  | ColumnsDropped (labels : list string).

Record world : Type := World {
  heap : gmap loc DataFrame;
  stdout : list event
}.

(** Computations: they read and change the world, and return or raise.  What
    was changed before an exception stays changed. *)
Definition M (A : Type) : Type := world → outcome A * world.

#[global] Instance M_ret : MRet M := λ A a w, (Returned a, w).
#[global] Instance M_bind : MBind M := λ A B f m w,
  match m w with
  | (Returned a, w') => f a w'
  | (Raised e, w') => (Raised e, w')
  end.

Definition lift {A} (o : outcome A) : M A := λ w, (o, w).

Definition deref (r : loc) : M DataFrame := λ w,
  match heap w !! r with
  | Some d => (Returned d, w)
  | None => (Raised (NoObject r), w)
  end.

Definition assign (r : loc) (d : DataFrame) : M unit := λ w,
  (Returned tt, World (<[r := d]> (heap w)) (stdout w)).

Definition alloc (d : DataFrame) : M loc := λ w,
  let r := fresh (dom (heap w)) in
  (Returned r, World (<[r := d]> (heap w)) (stdout w)).

Definition print (e : event) : M unit := λ w,
  (Returned tt, World (heap w) (stdout w ++ [e])).

(** ** The pandas operations the code calls *)

Module Pandas.

(** [df[label]]: the column, [KeyError] when no column has the label.  (With
    several columns of one label pandas returns them all; the first stands
    for it here.) *)
Definition getitem (df : DataFrame) (label : string) : outcome (list value) :=
  match filter (λ c, c.1 = label) (series df) with
  | c :: _ => Returned c.2
  | [] => Raised (KeyError [label])
  end.

(** [df[labels]] for a list: the columns named, in the order of the list
    (each label brings every column that carries it); [KeyError] when a
    label is not in [df.columns]. *)
Definition getitem_list (df : DataFrame) (labels : list string) : outcome DataFrame :=
  match filter (λ l, l ∉ columns df) labels with
  | [] => Returned (mkDataFrame (n_rows df)
            (flat_map (λ l, filter (λ c, c.1 = l) (series df)) labels))
  | missing => Raised (KeyError missing)
  end.

(** The rows of a table, each the list of its cells in column order. *)
Definition rows (df : DataFrame) : list (list value) :=
  (λ i, (λ c : string * list value, nth i c.2 VMissing) <$> series df) <$> seq 0 (n_rows df).

(** [df.apply(f, axis=1)] for an [f] that returns a scalar: one result per
    row.  (For a table without rows or without columns pandas takes the
    result from a call of [f] on an empty row; for the [f] used here that
    gives the same.) *)
Definition apply_axis1 (f : list value → value) (df : DataFrame) : list value :=
  f <$> rows df.

(** [df[label] = vals] on the table itself: the column is replaced where
    the label exists, and appended as the last column where it does not. *)
Definition setitem (df : DataFrame) (label : string) (vals : list value) : DataFrame :=
  if bool_decide (label ∈ columns df)
  then mkDataFrame (n_rows df)
         ((λ c : string * list value, if bool_decide (c.1 = label) then (c.1, vals) else c) <$> series df)
  else mkDataFrame (n_rows df) (series df ++ [(label, vals)]).

(** [df.drop(columns=labels, errors='ignore')]: a new table without the
    columns named; labels that no column has are passed over. *)
Definition drop_ignore (df : DataFrame) (labels : list string) : DataFrame :=
  mkDataFrame (n_rows df) (filter (λ c, c.1 ∉ labels) (series df)).

(** [df.isnull()]: the boolean table of the missing cells. *)
Definition isnull (df : DataFrame) : list (string * list bool) :=
  (λ c : string * list value, (c.1, is_missing <$> c.2)) <$> series df.

(** [mean()] of one boolean column: the sum of the flags over their
    number, in binary64, and [NaN] for a column without cells. *)
Definition mean_flags (flags : list bool) : F64.float :=
  match length flags with
  | O => F64.nan
  | n => F64.div (F64.of_nat (length (filter (λ b, b = true) flags))) (F64.of_nat n)
  end.

(** [mean()] of a boolean table: a Series indexed by the column labels. *)
Definition mean (flags : list (string * list bool)) : list (string * F64.float) :=
  (λ c : string * list bool, (c.1, mean_flags c.2)) <$> flags.

(** [df[mask]] for a boolean Series: the rows whose flag is true. *)
Definition select (mask : list bool) (vals : list value) : list value :=
  (filter (λ p, p.1 = true) (zip mask vals)).*2.

Definition getitem_mask (df : DataFrame) (mask : list bool) : DataFrame :=
  mkDataFrame (length (filter (λ b, b = true) mask))
              ((λ c : string * list value, (c.1, select mask c.2)) <$> series df).

(** [s.isin(values)]: unlike [==], a missing cell is in a list that holds a
    missing value. *)
Definition isin (values : list value) (v : value) : bool :=
  existsb (λ x, py_eq v x || (is_missing v && is_missing x)) values.

(** One more occurrence of [v] in the counts gathered so far: keys stay in
    the order of their first occurrence. *)
Fixpoint bump (v : value) (counts : list (value * nat)) : list (value * nat) :=
  match counts with
  | [] => [(v, 1)]
  | (k, n) :: rest => if py_eq k v then (k, S n) :: rest else (k, n) :: bump v rest
  end.

(** Order of the buckets: the larger count first. *)
Definition more_frequent (a b : value * nat) : Prop := (snd b <= snd a)%nat.

#[global] Instance more_frequent_dec a b : Decision (more_frequent a b).
Proof. unfold more_frequent. apply _. Defined.

(** [s.value_counts()]: missing cells are left out ([dropna=True]), the
    distinct values are counted and the buckets sorted by falling count
    (pandas fixes no order among equal counts; a merge sort stands for it). *)
Definition value_counts (s : list value) : list (value * nat) :=
  merge_sort more_frequent
    (foldl (λ counts v, bump v counts) [] (filter (λ v, is_missing v = false) s)).

(** [counts.reset_index()]: the keys and the counts as two columns.  (Their
    labels depend on the pandas version; every caller renames both.) *)
Definition reset_index (name : string) (counts : list (value * nat)) : DataFrame :=
  mkDataFrame (length counts)
    [(name, counts.*1); ("count", (λ n, VNum (Z.of_nat n)) <$> counts.*2)].

(** [df.columns = names]: [ValueError] unless there is a name per column. *)
Definition set_columns (names : list string) (df : DataFrame) : outcome DataFrame :=
  if bool_decide (length names = length (series df))
  then Returned (mkDataFrame (n_rows df) (zip names (series df).*2))
  else Raised (ValueError "Length mismatch").

End Pandas.

(** ** data_cleaning_functions.py *)

(** [col.split('(')[-1].replace(')', '').strip()]: what follows the last
    opening parenthesis of the name, without closing parentheses, trimmed. *)
Definition column_label (col : string) : string :=
  PyStr.strip (PyStr.remove ")" (List.last (PyStr.split "(" col) "")).

(** The condition of the comprehension:
    [value == True or (isinstance(value, str) and value.strip())]; the
    [match] is the [isinstance] test, and a string is true when not empty. *)
Definition is_positive (value : value) : bool :=
  py_eq value (VBool true)
  || match value with
     | VStr s => PyStr.truthy (PyStr.strip s)
     | _ => false
     end.

(** The inner function of [combine_columns]; [zip] stops at the shorter of
    the names and the row. *)
Definition get_positive_responses (columns_to_combine : list string)
    (row : list value) : list string :=
  omap (λ '(col, value),
          if is_positive value
          then Some (if py_eq value (VBool true) then column_label col
                     else PyStr.strip (py_str value))
          else None)
       (zip columns_to_combine row).

(** The right-hand side of line 39, given the selected columns:
    [selected.apply(lambda row: separator.join(get_positive_responses(row)), axis=1)]. *)
Definition combined_column (columns_to_combine : list string) (separator : string)
    (selected : DataFrame) : list value :=
  Pandas.apply_axis1
    (λ row, VStr (PyStr.join separator (get_positive_responses columns_to_combine row)))
    selected.

(** [combine_columns(df, columns_to_combine, new_column_name, separator)].
    Line 39 selects the columns, computes the combined value of every row
    and stores it in the table [df] refers to; line 42 binds the local name
    to a new table without the columns, which is returned. *)
Definition combine_columns (df : loc) (columns_to_combine : list string)
    (new_column_name : string) (separator : string) : M loc :=
  d ← deref df;
  selected ← lift (Pandas.getitem_list d columns_to_combine);
  _ ← assign df (Pandas.setitem d new_column_name
                   (combined_column columns_to_combine separator selected));
  d' ← deref df;
  alloc (Pandas.drop_ignore d' columns_to_combine).

(** [remove_high_missing_columns(df, threshold)] *)
Definition remove_high_missing_columns (df : loc) (threshold : F64.float) : M loc :=
  d ← deref df;
  let missing_proportion := Pandas.mean (Pandas.isnull d) in
  let columns_to_drop :=
    (filter (λ p, F64.gt p.2 threshold = true) missing_proportion).*1 in
  r ← alloc (Pandas.drop_ignore d columns_to_drop);
  _ ← print (ColumnsDropped columns_to_drop);
  mret r.

(** ** dash2.py *)

(** The figure a callback returns: the table of counts it charts and the
    columns of the two axes.  Titles and styling are left out. *)
Record figure : Type := Figure {
  data_frame : DataFrame;
  x : string;
  y : string
}.

(** A colour written as [#] and digits, the notation of both calls of
    [px.bar] in the callbacks (named colours and [rgb(...)] do not occur
    there). *)
Inductive colour : Type :=
  | HexColour (digits : string).

Definition is_hex_digit (a : ascii) : bool :=
  let n := nat_of_ascii a in
  ((48 <=? n)%nat && (n <=? 57)%nat)
  || ((65 <=? n)%nat && (n <=? 70)%nat)
  || ((97 <=? n)%nat && (n <=? 102)%nat).

Fixpoint all_hex_digits (s : string) : bool :=
  match s with
  | EmptyString => true
  | String a s' => is_hex_digit a && all_hex_digits s'
  end.

(** plotly's check of a colour: spaces aside, [#] is followed by three or by
    six hexadecimal digits. *)
Definition valid_colour (c : colour) : bool :=
  match c with
  | HexColour digits =>
      let d := PyStr.remove " " digits in
      all_hex_digits d
      && (bool_decide (String.length d = 3) || bool_decide (String.length d = 6))
  end.

(** [px.bar(data, x=x, y=y, color_discrete_sequence=[c])]: [ValueError] when
    an axis is not a column of the table, and [ValueError] when the colour
    of the bars is refused; the one trace of the figure takes the one colour
    of the sequence, also for a table without rows. *)
Definition px_bar (data : DataFrame) (x y : string) (c : colour) : outcome figure :=
  if bool_decide (x ∈ columns data ∧ y ∈ columns data)
  then if valid_colour c
       then Returned (Figure data x y)
       else Raised (ValueError "Invalid value for the 'color' property of bar.marker")
  else Raised (ValueError "Value is not the name of a column in 'data_frame'").

(** [df[column].value_counts().reset_index()] followed by the assignment of
    the two column names, as on lines 68-69, 72-73, 251-252 and 293-294. *)
Definition count_table (d : DataFrame) (column key count : string) : M DataFrame :=
  s ← lift (Pandas.getitem d column);
  lift (Pandas.set_columns [key; count] (Pandas.reset_index column (Pandas.value_counts s))).

(** Lines 68-69; [df] is the table loaded at start-up. *)
Definition favorite_coffee_counts (df : loc) : M DataFrame :=
  d ← deref df;
  count_table d "What_is_your_favorite_coffee_drink" "Coffee_Drink" "Count".

(** Lines 72-73. *)
Definition employment_counts (df : loc) : M DataFrame :=
  d ← deref df;
  count_table d "Employment_Status" "Status" "Count".

(** [update_age_consumption(selected_cups)]; a cleared dropdown passes
    [None], here [VMissing]. *)
Definition update_age_consumption (df : loc) (selected_cups : value) : M figure :=
  d ← deref df;
  cups ← lift (Pandas.getitem d "How_many_cups_of_coffee_do_you_typically_drink_per_day");
  let filtered_df := Pandas.getitem_mask d ((λ v, py_eq v selected_cups) <$> cups) in
  age_counts ← count_table filtered_df "What_is_your_age" "Age_Group" "Count";
  lift (px_bar age_counts "Age_Group" "Count" (HexColour "2E86C1")).

(** [not selected_affiliations]: it holds for [None] and for the empty list. *)
Definition nothing_selected (selected_affiliations : option (list value)) : bool :=
  match selected_affiliations with
  | None | Some [] => true
  | Some (_ :: _) => false
  end.

(** Lines 287-294 of [update_political_chart]: the rows kept and the table
    of counts bound to [political_counts]. *)
Definition political_counts (df : loc)
    (selected_affiliations : option (list value)) : M DataFrame :=
  d ← deref df;
  filtered_df ←
    (if nothing_selected selected_affiliations then mret d
     else
       s ← lift (Pandas.getitem d "Political_Affiliation");
       mret (Pandas.getitem_mask d (Pandas.isin (default [] selected_affiliations) <$> s)));
  count_table filtered_df "Political_Affiliation" "Political_Affiliation" "Count".

(** [update_political_chart(selected_affiliations)]: the counts, then the
    chart of line 296, whose colour is written [#2E86C]. *)
Definition update_political_chart (df : loc)
    (selected_affiliations : option (list value)) : M figure :=
  counts ← political_counts df selected_affiliations;
  lift (px_bar counts "Political_Affiliation" "Count" (HexColour "2E86C")).

(** ** The vocabulary of the properties *)

(** The label of a cell of an indicator column in the words of the
    specification: the column's label for boolean true, the trimmed string
    for a non-empty string, nothing for false, missing and the empty string. *)
Definition claimed_label (col : string) (v : value) : option string :=
  match v with
  | VBool true => Some (column_label col)
  | VStr EmptyString => None
  | VStr s => Some (PyStr.strip s)
  | _ => None
  end.

(** The same with the two changes the code asks for: the column's label for
    a cell equal to [True] (boolean true, and the number 1), the trimmed
    string for a string that is not blank, nothing otherwise. *)
Definition selected_label (col : string) (v : value) : option string :=
  match v with
  | VBool true | VNum 1 => Some (column_label col)
  | VStr s => if decide (PyStr.strip s = "") then None else Some (PyStr.strip s)
  | _ => None
  end.

(** The combined value of row [i] for a labelling of the cells: the labels of
    the group's columns, in the order of the group, joined. *)
Definition joined_labels (label_of : string → value → option string)
    (T : DataFrame) (group : list string) (separator : string) (i : nat) : value :=
  VStr (PyStr.join separator (omap (λ col, label_of col (cell T col i)) group)).

(** Number of missing cells of a column. *)
Definition count_missing (vals : list value) : nat :=
  length (filter (λ v, is_missing v = true) vals).

(** Missingness ratio of a column of a table: missing cells over rows, in
    binary64. *)
Definition missingness_ratio (T : DataFrame) (vals : list value) : F64.float :=
  F64.div (F64.of_nat (count_missing vals)) (F64.of_nat (n_rows T)).

(** The proportion of missing cells of a column, as line 69 computes it. *)
Definition missing_proportion_of (c : string * list value) : F64.float :=
  Pandas.mean_flags (is_missing <$> c.2).

(** Number of cells of a column that are not missing. *)
Definition count_present (vals : list value) : nat :=
  length (filter (λ v, is_missing v = false) vals).

(** Sum of a column of counts. *)
Definition sum_counts (vals : list value) : Z :=
  foldr (λ v acc, (default 0 (as_number v) + acc)%Z) 0%Z vals.

(** Run a computation. *)
Definition run {A} (m : M A) (w : world) : outcome A * world := m w.

(** ** Example tables *)

(** The row of the specification's scenario, with one more column. *)
Definition drinks_table : DataFrame :=
  mkDataFrame 1 [("Prefers (Latte)", [VBool true]);
                 ("Prefers (Cortado)", [VBool false]);
                 ("OtherDrink", [VStr ""]);
                 ("Age", [VStr "25-34"])].

Definition drinks_group : list string :=
  ["Prefers (Latte)"; "Prefers (Cortado)"; "OtherDrink"].

(** The same row with a blank answer in the free-text column. *)
Definition blank_table : DataFrame :=
  mkDataFrame 1 [("Prefers (Latte)", [VBool true]);
                 ("Prefers (Cortado)", [VBool false]);
                 ("OtherDrink", [VStr " "]);
                 ("Age", [VStr "25-34"])].

(** Indicator columns read from a file as numbers: 1 and 0. *)
Definition flags_table : DataFrame :=
  mkDataFrame 2 [("Prefers (Latte)", [VNum 1; VNum 0]);
                 ("Prefers (Cortado)", [VNum 1; VMissing])].

(** Ten rows; the column [Notes] is missing in nine of them. *)
Definition notes_table : DataFrame :=
  mkDataFrame 10
    [("Id", (λ n, VNum (Z.of_nat n)) <$> seq 0 10);
     ("Notes", VStr "decaf" :: replicate 9 VMissing)].

(** A table without rows. *)
Definition empty_table : DataFrame :=
  mkDataFrame 0 [("Id", []); ("Notes", [])].

(** Five respondents: cups per day, age group, political affiliation (one
    missing), favourite drink, employment status. *)
Definition survey_table : DataFrame :=
  mkDataFrame 5
    [("How_many_cups_of_coffee_do_you_typically_drink_per_day",
        [VNum 1; VNum 2; VNum 2; VMissing; VNum 4]);
     ("What_is_your_age",
        [VStr "25-34"; VStr "25-34"; VStr "35-44"; VStr "nan"; VStr "18-24"]);
     ("Political_Affiliation",
        [VStr "Independent"; VMissing; VStr "Democrat"; VStr "Independent";
         VStr "Republican"]);
     ("What_is_your_favorite_coffee_drink",
        [VStr "Latte"; VStr "Pourover"; VStr "Latte"; VMissing; VStr "Cortado"]);
     ("Employment_Status",
        [VStr "Employed full-time"; VStr "Student"; VMissing; VMissing;
         VStr "Employed full-time"])].

(** A world with one table, at reference 1, and nothing printed. *)
Definition world_of (T : DataFrame) : world := World {[ 1%positive := T ]} [].

(** ** dash2.py: the navigation *)

(** What [display_page] puts into the page: one of the four layouts, or a
    text. *)
Inductive content : Type :=
  | page_1_layout
  | page_2_layout
  | page_3_layout
  | page_4_layout
  | Text (s : string).

(** [display_page(pathname)]; before the first navigation the path is
    [None], which equals no string. *)
Definition display_page (pathname : option string) : content :=
  if bool_decide (pathname = Some "/") || bool_decide (pathname = Some "/page-1")
  then page_1_layout
  else if bool_decide (pathname = Some "/page-2") then page_2_layout
  else if bool_decide (pathname = Some "/page-3") then page_3_layout
  else if bool_decide (pathname = Some "/page-4") then page_4_layout
  else Text "404: Page Not Found".

(** The links of the navigation bar, label and target, and the target of
    the brand (lines 76-87). *)
Definition navbar : list (string * string) :=
  [("Overview", "/page-1"); ("Coffee Preferences", "/page-2");
   ("Age Analysis", "/page-3"); ("Demographics", "/page-4")].

Definition brand_href : string := "/".

(** ** More vocabulary *)

(** [c in s] for a character. *)
Fixpoint char_in (c : ascii) (s : string) : bool :=
  match s with
  | EmptyString => false
  | String a s' => Ascii.eqb a c || char_in c s'
  end.

(** A string that is empty or starts with a character that is no space. *)
Definition starts_clean (s : string) : Prop :=
  match s with
  | EmptyString => True
  | String a _ => PyStr.isspace a = false
  end.

(** Number of cells of a column equal to [k]. *)
Definition occurrences (k : value) (vals : list value) : nat :=
  length (filter (λ v, py_eq k v = true) vals).

(** The buckets of a count that match a value, and what they hold together. *)
Definition matching (v : value) (buckets : list (value * nat)) : list (value * nat) :=
  filter (λ b, py_eq b.1 v = true) buckets.

Definition matching_total (v : value) (buckets : list (value * nat)) : nat :=
  sum_list_with snd (matching v buckets).

(** Buckets that count the cells seen so far: keys that are not missing,
    counts above zero, at most one bucket for a value, and for every value
    the number of its occurrences. *)
Definition counted (buckets : list (value * nat)) (seen : list value) : Prop :=
  Forall (λ b, is_missing b.1 = false ∧ 0 < b.2) buckets
  ∧ (∀ v, is_missing v = false → length (matching v buckets) ≤ 1)
  ∧ (∀ v, is_missing v = false → matching_total v buckets = occurrences v seen).

(** Number of rows whose first cell equals [selected] and whose second cell
    is not missing. *)
Definition matching_present (selected : value) (filter_col group_col : list value) : nat :=
  length (filter (λ p : value * value, py_eq p.1 selected = true ∧ is_missing p.2 = false)
                 (zip filter_col group_col)).

(** The cells [political_counts] counts: every cell without a selection,
    the selected ones with one. *)
Definition affiliations_counted (selected : option (list value)) (vals : list value)
    : list value :=
  if nothing_selected selected then vals
  else Pandas.select (Pandas.isin (default [] selected) <$> vals) vals.

(** Number of cells that are in the selection and not missing. *)
Definition selected_present (selection : list value) (vals : list value) : nat :=
  length (filter (λ v, Pandas.isin selection v = true ∧ is_missing v = false) vals).

(** [x <= y] on binary64. *)
Definition F64_le (x y : F64.float) : bool := SFleb x y.

(** The labels line 72 of data_cleaning_functions.py selects: those of the
    columns whose proportion of missing cells is above the threshold. *)
Definition labels_above (T : DataFrame) (t : F64.float) : list string :=
  (filter (λ c, F64.gt (missing_proportion_of c) t = true) (series T)).*1.

(** A table that already has a column [Drinks]. *)
Definition refill_table : DataFrame :=
  mkDataFrame 2 [("Prefers (Latte)", [VBool true; VBool false]);
                 ("Drinks", [VStr "old"; VStr "older"]);
                 ("Other", [VStr " Mocha "; VMissing]);
                 ("Age", [VStr "25-34"; VStr "35-44"])].

(** * Properties *)

(** ** Running the two cleaning functions *)

Lemma combine_columns_run w df T G name sep :
  heap w !! df = Some T →
  run (combine_columns df G name sep) w =
    match Pandas.getitem_list T G with
    | Raised e => (Raised e, w)
    | Returned selected =>
        let T' := Pandas.setitem T name (combined_column G sep selected) in
        let h := <[df := T']> (heap w) in
        (Returned (fresh (dom h)),
         World (<[fresh (dom h) := Pandas.drop_ignore T' G]> h) (stdout w))
    end.
Proof.
  intros Hdf. unfold run, combine_columns, mbind, M_bind, deref, lift, assign, alloc.
  rewrite Hdf. destruct (Pandas.getitem_list T G) as [selected|e]; simpl; [|done].
  by rewrite lookup_insert_eq.
Qed.

Lemma remove_high_missing_columns_run w df T t :
  heap w !! df = Some T →
  run (remove_high_missing_columns df t) w =
    let dropped :=
      (filter (λ p, F64.gt p.2 t = true) (Pandas.mean (Pandas.isnull T))).*1 in
    (Returned (fresh (dom (heap w))),
     World (<[fresh (dom (heap w)) := Pandas.drop_ignore T dropped]> (heap w))
           (stdout w ++ [ColumnsDropped dropped])).
Proof.
  intros Hdf.
  unfold run, remove_high_missing_columns, mbind, M_bind, deref, alloc, print, mret, M_ret.
  by rewrite Hdf.
Qed.

Lemma bind_returned {A B} (m : M A) (f : A → M B) w a w' :
  m w = (Returned a, w') → mbind f m w = f a w'.
Proof. unfold mbind, M_bind. by intros ->. Qed.

Lemma bind_raised {A B} (m : M A) (f : A → M B) w e w' :
  m w = (Raised e, w') → mbind f m w = (Raised e, w').
Proof. unfold mbind, M_bind. by intros ->. Qed.

Lemma deref_returned w df T : heap w !! df = Some T → deref df w = (Returned T, w).
Proof. unfold deref. by intros ->. Qed.

Lemma fresh_heap_None (h : gmap loc DataFrame) : h !! fresh (dom h) = None.
Proof. apply not_elem_of_dom, is_fresh. Qed.

Lemma fresh_heap_ne (h : gmap loc DataFrame) r T : h !! r = Some T → fresh (dom h) ≠ r.
Proof. intros Hr Heq. rewrite <- Heq, fresh_heap_None in Hr. done. Qed.

(** ** Columns and their labels *)

Lemma filter_none {A} (P : A → Prop) `{!∀ x, Decision (P x)} (l : list A) :
  (∀ x, x ∈ l → ¬ P x) → filter P l = [].
Proof.
  induction l as [|a l IH]; intros Hl; [done|].
  rewrite filter_cons_False by (apply Hl; left).
  apply IH. intros x Hx. apply Hl. by right.
Qed.

Lemma filter_all {A} (P : A → Prop) `{!∀ x, Decision (P x)} (l : list A) :
  (∀ x, x ∈ l → P x) → filter P l = l.
Proof.
  induction l as [|a l IH]; intros Hl; [done|].
  rewrite filter_cons_True by (apply Hl; left).
  f_equal. apply IH. intros x Hx. apply Hl. by right.
Qed.

Section Labels.
Implicit Types (S : list (string * list value)) (G : list string).

(** With distinct labels, a label selects exactly its column. *)
Lemma filter_label_unique S k vals :
  NoDup S.*1 → (k, vals) ∈ S → filter (λ c, c.1 = k) S = [(k, vals)].
Proof.
  induction S as [|[k' v'] S IH]; intros Hnd Hin; [by apply elem_of_nil in Hin|].
  rewrite fmap_cons in Hnd. apply NoDup_cons in Hnd as [Hk' Hnd].
  apply elem_of_cons in Hin as [Heq|Hin].
  - injection Heq as <- <-. rewrite filter_cons_True by done. f_equal.
    apply filter_none. intros [k2 v2] Hin2 Heq2. simpl in Heq2. subst k2.
    apply Hk'. apply list_elem_of_fmap. by exists (k, v2).
  - rewrite filter_cons_False; [by apply IH|].
    simpl. intros ->. apply Hk'. apply list_elem_of_fmap. by exists (k, vals).
Qed.

Lemma filter_label_absent S k : k ∉ S.*1 → filter (λ c, c.1 = k) S = [].
Proof.
  intros Hk. apply filter_none. intros [k2 v2] Hin2 Heq2. simpl in Heq2. subst k2.
  apply Hk. apply list_elem_of_fmap. by exists (k, v2).
Qed.

Lemma label_column S k : k ∈ S.*1 → ∃ vals, (k, vals) ∈ S.
Proof.
  intros ([k' vals] & -> & Hin)%list_elem_of_fmap. by exists vals.
Qed.

Lemma fmap_fst_filter (P : string → Prop) `{!∀ k, Decision (P k)} S :
  (filter (λ c, P c.1) S).*1 = filter P S.*1.
Proof.
  induction S as [|[k v] S IH]; [done|].
  rewrite fmap_cons, (filter_cons (λ c, P c.1)), (filter_cons P). cbn [fst].
  destruct (decide (P k)); [rewrite fmap_cons|]; by rewrite IH.
Qed.

(** A group of distinct labels that the table has covers as many columns
    as it has labels. *)
Lemma length_filter_group (names G : list string) :
  NoDup names → NoDup G → G ⊆ names →
  length (filter (λ k, k ∉ G) names) + length G = length names.
Proof.
  intros Hn HG Hsub.
  rewrite <- (length_app (filter (λ k, k ∉ G) names) G).
  apply Permutation_length. apply NoDup_Permutation; [|done|].
  - apply NoDup_app. split; [by apply NoDup_filter|]. split; [|done].
    intros k [Hk _]%list_elem_of_filter. done.
  - intros k. rewrite elem_of_app, list_elem_of_filter.
    destruct (decide (k ∈ G)) as [Hin|Hout]; [|tauto].
    split; [intros _; by apply Hsub | tauto].
Qed.
End Labels.

(** ** combine_columns: the selection and the labels *)

Lemma getitem_list_present T G :
  G ⊆ columns T →
  Pandas.getitem_list T G =
    Returned (mkDataFrame (n_rows T)
                (flat_map (λ l, filter (λ c, c.1 = l) (series T)) G)).
Proof.
  intros Hsub. unfold Pandas.getitem_list.
  rewrite (filter_none (λ l, l ∉ columns T)); [done|].
  intros l Hl Hout. by apply Hout, Hsub.
Qed.

Lemma getitem_list_missing T G l :
  l ∈ G → l ∉ columns T →
  ∃ missing, Pandas.getitem_list T G = Raised (KeyError missing) ∧ l ∈ missing.
Proof.
  intros Hl Hout. unfold Pandas.getitem_list.
  assert (Hin : l ∈ filter (λ l, l ∉ columns T) G) by by apply list_elem_of_filter.
  destruct (filter (λ l, l ∉ columns T) G) as [|m ms] eqn:E.
  - by apply elem_of_nil in Hin.
  - by exists (m :: ms).
Qed.

(** In the selected columns, row [i] holds the cells of the group's columns
    in the order of the group. *)
Lemma selected_row T G i :
  NoDup (columns T) → G ⊆ columns T →
  (λ c : string * list value, nth i c.2 VMissing)
    <$> flat_map (λ l, filter (λ c, c.1 = l) (series T)) G
  = (λ l, cell T l i) <$> G.
Proof.
  intros Hnd. induction G as [|l G IH]; intros Hsub; [done|].
  simpl. rewrite fmap_app, IH by (intros k Hk; apply Hsub; by right).
  destruct (label_column (series T) l) as [vals Hin]; [apply Hsub; left|].
  unfold cell. by rewrite (filter_label_unique _ _ vals).
Qed.

(** The comprehension of [get_positive_responses], cell by cell. *)
Lemma positive_label col v :
  (if is_positive v
   then Some (if py_eq v (VBool true) then column_label col else PyStr.strip (py_str v))
   else None) = selected_label col v.
Proof.
  destruct v as [[|]|s|z|]; try done.
  - unfold is_positive, selected_label; simpl.
    destruct (decide (PyStr.strip s = "")) as [->|Hne]; [done|].
    by destruct (PyStr.strip s).
  - by destruct z as [|[p|p|]|p].
Qed.

Lemma get_positive_responses_labels G (f : string → value) :
  get_positive_responses G (f <$> G) = omap (λ col, selected_label col (f col)) G.
Proof.
  unfold get_positive_responses. induction G as [|col G IH]; [done|].
  simpl. rewrite positive_label. unfold omap, fmap in IH. by rewrite IH.
Qed.

Lemma combined_column_lookup T G sep i :
  NoDup (columns T) → G ⊆ columns T → i < n_rows T →
  combined_column G sep
    (mkDataFrame (n_rows T) (flat_map (λ l, filter (λ c, c.1 = l) (series T)) G)) !! i
  = Some (joined_labels selected_label T G sep i).
Proof.
  intros Hnd Hsub Hi. unfold combined_column, Pandas.apply_axis1, Pandas.rows. simpl.
  rewrite !list_lookup_fmap, lookup_seq_lt by done. simpl.
  by rewrite selected_row, get_positive_responses_labels.
Qed.

Lemma length_combined_column G sep selected :
  length (combined_column G sep selected) = n_rows selected.
Proof.
  unfold combined_column, Pandas.apply_axis1, Pandas.rows.
  by rewrite !length_fmap, length_seq.
Qed.

(** The new column is read back from the returned table when the group does
    not name it. *)
Lemma getitem_new_column T G name vals :
  name ∉ G →
  Pandas.getitem (Pandas.drop_ignore (Pandas.setitem T name vals) G) name = Returned vals.
Proof.
  intros Hout. unfold Pandas.getitem, Pandas.drop_ignore, Pandas.setitem. simpl.
  case_bool_decide as Hin; simpl.
  - unfold columns in Hin. induction (series T) as [|[k v] S IH]; [by apply elem_of_nil in Hin|].
    rewrite fmap_cons. simpl. case_bool_decide as Hk; simpl in Hk.
    + subst k. rewrite filter_cons_True by done. by rewrite filter_cons_True.
    + rewrite fmap_cons in Hin. apply elem_of_cons in Hin as [Heq|Hin]; [done|].
      destruct (decide (k ∈ G)).
      * rewrite filter_cons_False by (simpl; tauto). by apply IH.
      * rewrite filter_cons_True by done. rewrite filter_cons_False by done. by apply IH.
  - rewrite !filter_app. rewrite (filter_none (λ c, c.1 = name)).
    + rewrite filter_cons_True by done. by rewrite filter_cons_True.
    + intros [k v] [_ Hkv]%list_elem_of_filter Hk. simpl in Hk. subst k.
      apply Hin. apply list_elem_of_fmap. by exists (name, v).
Qed.

(** ** combine_columns: the claims *)

(** C1, as the specification states it, fails on a blank string: the cell
    [" "] is a non-empty string, so the claimed value of the row is the join of
    ["Latte"] and the trimmed string [""], that is ["Latte; "]; the code
    leaves the blank string out and stores ["Latte"]. *)
Lemma combine_columns_blank_counterexample :
  ∃ r w' R vals,
    run (combine_columns 1%positive drinks_group "Drinks" "; ") (world_of blank_table)
      = (Returned r, w')
    ∧ heap w' !! r = Some R
    ∧ Pandas.getitem R "Drinks" = Returned vals
    ∧ vals !! 0 = Some (VStr "Latte")
    ∧ joined_labels claimed_label blank_table drinks_group "; " 0 = VStr "Latte; "
    ∧ vals !! 0 ≠ Some (joined_labels claimed_label blank_table drinks_group "; " 0).
Proof.
  eexists _, _, _, _.
  split; [vm_compute; reflexivity|].
  split; [vm_compute; reflexivity|].
  split; [vm_compute; reflexivity|].
  split; [reflexivity|].
  split; [vm_compute; reflexivity|].
  vm_compute. discriminate.
Qed.

(** C1 (amended): for a table with distinct column labels and a group of
    columns of the table that does not hold the new name, the call returns a
    new table whose column [name] has one value per row, and the value of row
    [i] is the join by the separator, in the order of the group, of the labels
    of the selected cells: the column's label for a cell equal to [True], the
    trimmed string for a string that is not blank, nothing for any other cell;
    it is the empty string when no cell is selected. *)
Theorem combine_columns_values w df T G name sep :
  heap w !! df = Some T →
  NoDup (columns T) →
  G ⊆ columns T →
  name ∉ G →
  ∃ r w' R vals,
    run (combine_columns df G name sep) w = (Returned r, w')
    ∧ heap w' !! r = Some R
    ∧ Pandas.getitem R name = Returned vals
    ∧ length vals = n_rows T
    ∧ (∀ i, i < n_rows T → vals !! i = Some (joined_labels selected_label T G sep i))
    ∧ (∀ i, (∀ col, col ∈ G → selected_label col (cell T col i) = None) →
            joined_labels selected_label T G sep i = VStr "").
Proof.
  intros Hdf Hnd Hsub Hname.
  rewrite (combine_columns_run _ _ T) by done.
  rewrite getitem_list_present by done. cbv zeta.
  eexists _, _, _, _. split; [reflexivity|]. simpl.
  split; [by rewrite lookup_insert_eq|].
  split; [by apply getitem_new_column|].
  split; [by rewrite length_combined_column|].
  split; [intros i Hi; by apply combined_column_lookup|].
  intros i Hnone. unfold joined_labels. f_equal.
  clear Hsub Hname. induction G as [|col G IH]; [done|].
  simpl. rewrite Hnone by left. apply IH. intros c Hc. apply Hnone. by right.
Qed.

(** The scenario of the specification: [True], [False] and the empty string
    give ["Latte"]. *)
Lemma combine_columns_values_witness :
  ∃ r w' R vals,
    run (combine_columns 1%positive drinks_group "Drinks" "; ") (world_of drinks_table)
      = (Returned r, w')
    ∧ heap w' !! r = Some R
    ∧ Pandas.getitem R "Drinks" = Returned vals
    ∧ length vals = 1
    ∧ (∀ i, i < 1 →
         vals !! i = Some (joined_labels selected_label drinks_table drinks_group "; " i))
    ∧ (∀ i, (∀ col, col ∈ drinks_group →
               selected_label col (cell drinks_table col i) = None) →
            joined_labels selected_label drinks_table drinks_group "; " i = VStr "").
Proof.
  apply (combine_columns_values (world_of drinks_table) 1%positive drinks_table
           drinks_group "Drinks" "; ").
  - reflexivity.
  - apply (bool_decide_unpack _). vm_compute. exact I.
  - apply (bool_decide_unpack _). vm_compute. exact I.
  - apply (bool_decide_unpack _). vm_compute. exact I.
Defined.

Example scenario_latte :
  joined_labels selected_label drinks_table drinks_group "; " 0 = VStr "Latte".
Proof. vm_compute. reflexivity. Qed.

Example column_label_latte : column_label "Prefers (Latte)" = "Latte".
Proof. vm_compute. reflexivity. Qed.

(** Every closing parenthesis goes, not only a trailing one, and a name
    without parentheses is its own label. *)
Example column_label_inner : column_label "Drink (a)b " = "ab".
Proof. vm_compute. reflexivity. Qed.

Example column_label_plain : column_label " Decaf " = "Decaf".
Proof. vm_compute. reflexivity. Qed.

(** A cell holding the number 1 equals [True] and brings the column's label. *)
Example combine_columns_numeric_flags :
  ∃ r w' R,
    run (combine_columns 1%positive ["Prefers (Latte)"; "Prefers (Cortado)"] "Drinks" ", ")
        (world_of flags_table) = (Returned r, w')
    ∧ heap w' !! r = Some R
    ∧ R = mkDataFrame 2 [("Drinks", [VStr "Latte, Cortado"; VStr ""])].
Proof.
  eexists _, _, _. split; [vm_compute; reflexivity|].
  split; vm_compute; reflexivity.
Qed.

(** C2: for a table with distinct column labels, a group of distinct columns
    of the table and a name the table does not have, the returned table has
    the columns of the table outside the group, in their order and with their
    cells, followed by the column [name]: [|G|] columns fewer and one more. *)
Theorem combine_columns_shape w df T G name sep :
  heap w !! df = Some T →
  NoDup (columns T) →
  NoDup G →
  G ⊆ columns T →
  name ∉ columns T →
  ∃ r w' R,
    run (combine_columns df G name sep) w = (Returned r, w')
    ∧ heap w' !! r = Some R
    ∧ length (columns R) + length G = length (columns T) + 1
    ∧ columns R = filter (λ c, c ∉ G) (columns T) ++ [name]
    ∧ n_rows R = n_rows T
    ∧ (∀ c vals, (c, vals) ∈ series T → c ∉ G → (c, vals) ∈ series R)
    ∧ (∀ c vals, (c, vals) ∈ series R → c ≠ name → (c, vals) ∈ series T ∧ c ∉ G).
Proof.
  intros Hdf Hnd HG Hsub Hname.
  assert (HnG : name ∉ G) by (intros Hin; by apply Hname, Hsub).
  rewrite (combine_columns_run _ _ T) by done.
  rewrite getitem_list_present by done. cbv zeta.
  set (vals := combined_column G sep _).
  assert (HR : series (Pandas.drop_ignore (Pandas.setitem T name vals) G)
               = filter (λ c, c.1 ∉ G) (series T) ++ [(name, vals)]).
  { unfold Pandas.drop_ignore, Pandas.setitem. rewrite bool_decide_eq_false_2 by done.
    simpl. rewrite filter_app. by rewrite (filter_cons_True _ (name, vals)) by done. }
  assert (HC : columns (Pandas.drop_ignore (Pandas.setitem T name vals) G)
               = filter (λ c, c ∉ G) (columns T) ++ [name]).
  { unfold columns. rewrite HR, fmap_app. f_equal.
    exact (fmap_fst_filter (λ k, k ∉ G) (series T)). }
  eexists _, _, _. split; [reflexivity|]. simpl.
  split; [by rewrite lookup_insert_eq|].
  split.
  { rewrite HC, length_app. simpl.
    pose proof (length_filter_group (columns T) G Hnd HG Hsub). lia. }
  split; [done|].
  split.
  { unfold Pandas.drop_ignore, Pandas.setitem. by case_bool_decide. }
  split.
  - intros c cv Hin Hc. rewrite HR. apply elem_of_app. left.
    by apply list_elem_of_filter.
  - intros c cv Hin Hc. rewrite HR in Hin.
    apply elem_of_app in Hin as [Hin|Hin].
    + apply list_elem_of_filter in Hin as [Hout Hin]. done.
    + apply list_elem_of_singleton in Hin. congruence.
Qed.

Lemma combine_columns_shape_witness :
  ∃ r w' R,
    run (combine_columns 1%positive drinks_group "Drinks" "; ") (world_of drinks_table)
      = (Returned r, w')
    ∧ heap w' !! r = Some R
    ∧ length (columns R) + length drinks_group = length (columns drinks_table) + 1
    ∧ columns R = filter (λ c, c ∉ drinks_group) (columns drinks_table) ++ ["Drinks"]
    ∧ n_rows R = n_rows drinks_table
    ∧ (∀ c vals, (c, vals) ∈ series drinks_table → c ∉ drinks_group →
                 (c, vals) ∈ series R)
    ∧ (∀ c vals, (c, vals) ∈ series R → c ≠ "Drinks" →
                 (c, vals) ∈ series drinks_table ∧ c ∉ drinks_group).
Proof.
  apply (combine_columns_shape (world_of drinks_table) 1%positive drinks_table
           drinks_group "Drinks" "; ").
  - reflexivity.
  - apply (bool_decide_unpack _). vm_compute. exact I.
  - apply (bool_decide_unpack _). vm_compute. exact I.
  - apply (bool_decide_unpack _). vm_compute. exact I.
  - apply (bool_decide_unpack _). vm_compute. exact I.
Defined.

Lemma getitem_setitem T name vals :
  Pandas.getitem (Pandas.setitem T name vals) name = Returned vals.
Proof.
  rewrite <- (getitem_new_column T [] name vals) by apply not_elem_of_nil.
  unfold Pandas.drop_ignore, Pandas.getitem. simpl.
  rewrite (filter_all (λ c, c.1 ∉ [])); [done|].
  intros c _. apply not_elem_of_nil.
Qed.

(** C3, as the specification states it, fails: after the call the table the
    caller passed has the new column. *)
Lemma combine_columns_input_counterexample :
  let w' := (run (combine_columns 1%positive drinks_group "Drinks" "; ")
                 (world_of drinks_table)).2 in
  heap (world_of drinks_table) !! 1%positive = Some drinks_table
  ∧ heap w' !! 1%positive ≠ Some drinks_table
  ∧ columns <$> heap w' !! 1%positive
    = Some ["Prefers (Latte)"; "Prefers (Cortado)"; "OtherDrink"; "Age"; "Drinks"].
Proof.
  split; [reflexivity|]. split; [vm_compute; discriminate|]. vm_compute. reflexivity.
Qed.

Lemma columns_setitem T name vals :
  columns (Pandas.setitem T name vals)
  = if bool_decide (name ∈ columns T) then columns T else columns T ++ [name].
Proof.
  unfold Pandas.setitem. case_bool_decide; unfold columns; simpl.
  - clear. induction (series T) as [|[k v] S IH]; [done|].
    rewrite !fmap_cons, IH. simpl. by case_bool_decide.
  - by rewrite fmap_app.
Qed.

Lemma series_setitem_other T name vals c cv :
  c ≠ name → (c, cv) ∈ series (Pandas.setitem T name vals) ↔ (c, cv) ∈ series T.
Proof.
  intros Hc. unfold Pandas.setitem. case_bool_decide; simpl.
  - rewrite list_elem_of_fmap. split.
    + intros ([k v] & Heq & Hin). simpl in Heq. case_bool_decide; congruence.
    + intros Hin. exists (c, cv). simpl. by rewrite bool_decide_eq_false_2.
  - rewrite elem_of_app, list_elem_of_singleton. split; [|tauto].
    intros [Hin|Heq]; [done|congruence].
Qed.

Lemma getitem_list_returned T G selected :
  Pandas.getitem_list T G = Returned selected →
  G ⊆ columns T
  ∧ selected = mkDataFrame (n_rows T)
                 (flat_map (λ l, filter (λ c, c.1 = l) (series T)) G).
Proof.
  unfold Pandas.getitem_list.
  destruct (filter (λ l, l ∉ columns T) G) as [|m ms] eqn:E; [|done].
  intros [= <-]. split; [|done].
  intros l Hl. destruct (decide (l ∈ columns T)) as [|Hout]; [done|].
  assert (Hin : l ∈ filter (λ l, l ∉ columns T) G) by by apply list_elem_of_filter.
  rewrite E in Hin. by apply elem_of_nil in Hin.
Qed.

(** C3 (amended): the call changes the table it is given in one way only:
    the column [name] is set to the combined values, one per row, which for
    a table with distinct labels are the joins of the selected labels of the
    group's cells (appended when the table has no such column, overwritten
    when it has).  No column is removed from it and every other column keeps
    its cells; the group's columns are removed only in the returned table,
    which is a new object; no other object is touched and nothing is
    printed.  A call that raises leaves the world as it was. *)
Theorem combine_columns_effects w df T G name sep :
  heap w !! df = Some T →
  match run (combine_columns df G name sep) w with
  | (Raised _, w') => w' = w
  | (Returned r, w') =>
      ∃ T' vals,
        heap w' !! df = Some T'
        ∧ T' = Pandas.setitem T name vals
        ∧ length vals = n_rows T
        ∧ (NoDup (columns T) →
           ∀ i, i < n_rows T →
                vals !! i = Some (joined_labels selected_label T G sep i))
        ∧ n_rows T' = n_rows T
        ∧ columns T' = (if bool_decide (name ∈ columns T) then columns T
                        else columns T ++ [name])
        ∧ (∀ c cv, c ≠ name → (c, cv) ∈ series T' ↔ (c, cv) ∈ series T)
        ∧ Pandas.getitem T' name = Returned vals
        ∧ r ≠ df ∧ heap w !! r = None
        ∧ heap w' !! r = Some (Pandas.drop_ignore T' G)
        ∧ (∀ r', r' ≠ df → r' ≠ r → heap w' !! r' = heap w !! r')
        ∧ stdout w' = stdout w
  end.
Proof.
  intros Hdf. rewrite (combine_columns_run _ _ T) by done.
  destruct (Pandas.getitem_list T G) as [selected|e] eqn:Hsel; [|done]. cbv zeta.
  apply getitem_list_returned in Hsel as [Hsub ->].
  set (vals := combined_column G sep _).
  set (h := <[df := Pandas.setitem T name vals]> (heap w)).
  assert (Hfresh : fresh (dom h) ≠ df).
  { apply (fresh_heap_ne h df (Pandas.setitem T name vals)). apply lookup_insert_eq. }
  exists (Pandas.setitem T name vals), vals. simpl.
  split; [rewrite lookup_insert_ne by done; unfold h; by rewrite lookup_insert_eq|].
  split; [done|].
  split; [unfold vals; by rewrite length_combined_column|].
  split; [intros Hnd i Hi; by apply combined_column_lookup|].
  split; [unfold Pandas.setitem; by case_bool_decide|].
  split; [apply columns_setitem|].
  split; [intros c cv Hc; by apply series_setitem_other|].
  split; [apply getitem_setitem|].
  split; [done|].
  split.
  { pose proof (fresh_heap_None h) as Hn. unfold h in Hn.
    by rewrite lookup_insert_ne in Hn. }
  split; [by rewrite lookup_insert_eq|].
  split; [|done].
  intros r' Hr1 Hr2. rewrite lookup_insert_ne by done. unfold h.
  by rewrite lookup_insert_ne.
Qed.

Lemma combine_columns_effects_witness :
  match run (combine_columns 1%positive drinks_group "Drinks" "; ")
            (world_of drinks_table) with
  | (Raised _, w') => w' = world_of drinks_table
  | (Returned r, w') =>
      ∃ T' vals,
        heap w' !! 1%positive = Some T'
        ∧ T' = Pandas.setitem drinks_table "Drinks" vals
        ∧ length vals = n_rows drinks_table
        ∧ (NoDup (columns drinks_table) →
           ∀ i, i < n_rows drinks_table →
                vals !! i
                = Some (joined_labels selected_label drinks_table drinks_group "; " i))
        ∧ n_rows T' = n_rows drinks_table
        ∧ columns T' = (if bool_decide ("Drinks" ∈ columns drinks_table)
                        then columns drinks_table
                        else columns drinks_table ++ ["Drinks"])
        ∧ (∀ c cv, c ≠ "Drinks" → (c, cv) ∈ series T' ↔ (c, cv) ∈ series drinks_table)
        ∧ Pandas.getitem T' "Drinks" = Returned vals
        ∧ r ≠ 1%positive ∧ heap (world_of drinks_table) !! r = None
        ∧ heap w' !! r = Some (Pandas.drop_ignore T' drinks_group)
        ∧ (∀ r', r' ≠ 1%positive → r' ≠ r →
                 heap w' !! r' = heap (world_of drinks_table) !! r')
        ∧ stdout w' = stdout (world_of drinks_table)
  end.
Proof.
  apply (combine_columns_effects (world_of drinks_table) 1%positive drinks_table
           drinks_group "Drinks" "; ").
  reflexivity.
Defined.

(** The table passed in, after the call of the scenario. *)
Example combine_columns_input_after :
  heap (run (combine_columns 1%positive drinks_group "Drinks" "; ")
            (world_of drinks_table)).2 !! 1%positive
  = Some (mkDataFrame 1 [("Prefers (Latte)", [VBool true]);
                         ("Prefers (Cortado)", [VBool false]);
                         ("OtherDrink", [VStr ""]);
                         ("Age", [VStr "25-34"]);
                         ("Drinks", [VStr "Latte"])]).
Proof. vm_compute. reflexivity. Qed.

(** A group with a label the table does not have: line 39 raises before line
    42 is reached, and nothing has changed. *)
Lemma combine_columns_missing_raises w df T G name sep l :
  heap w !! df = Some T → l ∈ G → l ∉ columns T →
  ∃ missing, run (combine_columns df G name sep) w = (Raised (KeyError missing), w)
             ∧ l ∈ missing.
Proof.
  intros Hdf Hl Hout. rewrite (combine_columns_run _ _ T) by done.
  destruct (getitem_list_missing T G l Hl Hout) as (missing & -> & Hin).
  by exists missing.
Qed.

(** C4: the code at the failing input.  The first call returns a table
    without the group's columns; the same call on that table raises
    [KeyError] for the three labels. *)
Lemma combine_columns_again_raises :
  ∃ r w1,
    run (combine_columns 1%positive drinks_group "Drinks" "; ") (world_of drinks_table)
      = (Returned r, w1)
    ∧ (columns <$> heap w1 !! r) = Some ["Age"; "Drinks"]
    ∧ run (combine_columns r drinks_group "Drinks" "; ") w1
      = (Raised (KeyError drinks_group), w1).
Proof.
  eexists _, _. split; [vm_compute; reflexivity|].
  split; vm_compute; reflexivity.
Qed.

(** ** remove_high_missing_columns *)

(** The literal [0.9] is the quotient of 9 by 10 in binary64. *)
Example lit_0_9_is_nine_tenths : F64.div (F64.of_nat 9) (F64.of_nat 10) = F64.lit_0_9.
Proof. vm_compute. reflexivity. Qed.

Example lit_0_8_is_eight_tenths : F64.div (F64.of_nat 8) (F64.of_nat 10) = F64.lit_0_8.
Proof. vm_compute. reflexivity. Qed.

Lemma columns_to_drop_labels T t :
  (filter (λ p, F64.gt p.2 t = true) (Pandas.mean (Pandas.isnull T))).*1
  = (filter (λ c, F64.gt (missing_proportion_of c) t = true) (series T)).*1.
Proof.
  unfold Pandas.mean, Pandas.isnull.
  induction (series T) as [|[k v] S IH]; [done|].
  rewrite !fmap_cons. cbn [fst snd].
  rewrite (filter_cons (λ p : string * F64.float, F64.gt p.2 t = true)).
  rewrite (filter_cons (λ c, F64.gt (missing_proportion_of c) t = true)).
  unfold missing_proportion_of at 1. cbn [fst snd].
  destruct (decide (F64.gt (Pandas.mean_flags (is_missing <$> v)) t = true));
    [rewrite !fmap_cons|]; by rewrite IH.
Qed.

Lemma count_missing_flags vals :
  length (filter (λ b, b = true) (is_missing <$> vals)) = count_missing vals.
Proof.
  unfold count_missing. induction vals as [|v vals IH]; [done|].
  rewrite fmap_cons, (filter_cons (λ b, b = true)),
    (filter_cons (λ v, is_missing v = true)).
  destruct (decide (is_missing v = true)); simpl; by rewrite IH.
Qed.

(** On a table with rows, the proportion is the missingness ratio. *)
Lemma missing_proportion_ratio T c vals :
  wf_frame T → 0 < n_rows T → (c, vals) ∈ series T →
  missing_proportion_of (c, vals) = missingness_ratio T vals.
Proof.
  intros Hwf Hn Hin. unfold missing_proportion_of, missingness_ratio, Pandas.mean_flags.
  simpl. rewrite count_missing_flags, length_fmap.
  unfold wf_frame in Hwf. rewrite Forall_forall in Hwf.
  specialize (Hwf _ Hin). simpl in Hwf. rewrite Hwf.
  destruct (n_rows T); [lia|done].
Qed.

(** Nothing is greater than [NaN]. *)
Lemma gt_nan t : F64.gt F64.nan t = false.
Proof. by destruct t as [[|]|[|]| |[|] m e]. Qed.

(** On a table without rows every proportion is [NaN]. *)
Lemma missing_proportion_no_rows T c :
  wf_frame T → n_rows T = 0 → c ∈ series T → missing_proportion_of c = F64.nan.
Proof.
  intros Hwf Hn Hin. unfold wf_frame in Hwf. rewrite Forall_forall in Hwf.
  specialize (Hwf _ Hin). unfold missing_proportion_of, Pandas.mean_flags.
  by rewrite length_fmap, Hwf, Hn.
Qed.

(** A label is among those to drop exactly when a column with that label has
    a proportion above the threshold. *)
Lemma elem_of_columns_to_drop T t k :
  k ∈ (filter (λ c, F64.gt (missing_proportion_of c) t = true) (series T)).*1
  ↔ ∃ vals, (k, vals) ∈ series T ∧ F64.gt (missing_proportion_of (k, vals)) t = true.
Proof.
  rewrite list_elem_of_fmap. split.
  - intros ([k' vals] & -> & [Hgt Hin]%list_elem_of_filter). by exists vals.
  - intros (vals & Hin & Hgt). exists (k, vals). split; [done|].
    by apply list_elem_of_filter.
Qed.

Lemma columns_drop_ignore T D :
  columns (Pandas.drop_ignore T D) = filter (λ k, k ∉ D) (columns T).
Proof. unfold columns, Pandas.drop_ignore. simpl. exact (fmap_fst_filter (λ k, k ∉ D) (series T)). Qed.

Lemma drop_ignore_nothing T D :
  (∀ k, k ∈ D → k ∉ columns T) → Pandas.drop_ignore T D = T.
Proof.
  intros HD. destruct T as [n S]. unfold Pandas.drop_ignore. simpl. f_equal.
  apply filter_all. intros [k v] Hin Hk. simpl in Hk.
  apply (HD k Hk). apply list_elem_of_fmap. by exists (k, v).
Qed.

Lemma remove_high_missing_columns_returns w df T t :
  heap w !! df = Some T →
  ∃ r w',
    run (remove_high_missing_columns df t) w = (Returned r, w')
    ∧ r ≠ df
    ∧ heap w' !! df = Some T
    ∧ heap w' !! r =
        Some (Pandas.drop_ignore T
                (filter (λ c, F64.gt (missing_proportion_of c) t = true) (series T)).*1).
Proof.
  intros Hdf. rewrite (remove_high_missing_columns_run _ _ T) by done. cbv zeta.
  rewrite columns_to_drop_labels.
  pose proof (fresh_heap_ne _ _ _ Hdf) as Hne.
  eexists _, _. split; [reflexivity|]. simpl.
  split; [done|]. split; [by rewrite lookup_insert_ne|]. by rewrite lookup_insert_eq.
Qed.

(** C5: on a table with rows and distinct column labels, a column is dropped
    exactly when its missingness ratio, the number of its missing cells over
    the number of rows in binary64, is greater than the threshold.  With ten
    rows and nine missing cells the column stays at threshold 0.9 and goes at
    threshold 0.8. *)
Theorem remove_high_missing_columns_iff w df T t :
  heap w !! df = Some T →
  wf_frame T →
  NoDup (columns T) →
  0 < n_rows T →
  ∃ r w' R,
    run (remove_high_missing_columns df t) w = (Returned r, w')
    ∧ heap w' !! r = Some R
    ∧ (∀ c vals, (c, vals) ∈ series T →
         (c ∉ columns R ↔ F64.gt (missingness_ratio T vals) t = true))
    ∧ (∀ c vals, (c, vals) ∈ series T → n_rows T = 10 → count_missing vals = 9 →
         (t = F64.lit_0_9 → c ∈ columns R) ∧ (t = F64.lit_0_8 → c ∉ columns R)).
Proof.
  intros Hdf Hwf Hnd Hn.
  destruct (remove_high_missing_columns_returns w df T t Hdf) as (r & w' & Hrun & _ & _ & Hr).
  eexists r, w', _. split; [done|]. split; [done|].
  assert (Hiff : ∀ c vals, (c, vals) ∈ series T →
            c ∉ columns (Pandas.drop_ignore T
                (filter (λ c, F64.gt (missing_proportion_of c) t = true) (series T)).*1)
            ↔ F64.gt (missingness_ratio T vals) t = true).
  { intros c vals Hin. rewrite columns_drop_ignore, list_elem_of_filter.
    rewrite elem_of_columns_to_drop.
    assert (Hc : c ∈ columns T) by (apply list_elem_of_fmap; by exists (c, vals)).
    rewrite <- (missing_proportion_ratio T c vals) by done.
    split.
    - intros Hnot.
      destruct (decide (F64.gt (missing_proportion_of (c, vals)) t = true)) as [|Hle];
        [done|].
      exfalso. apply Hnot. split; [|done]. intros (vals' & Hin' & Hgt).
      pose proof (filter_label_unique _ _ _ Hnd Hin) as E1.
      pose proof (filter_label_unique _ _ _ Hnd Hin') as E2.
      rewrite E1 in E2. by injection E2 as ->.
    - intros Hgt [Hnot _]. apply Hnot. by exists vals. }
  split; [done|].
  intros c vals Hin H10 H9. split; intros ->.
  - destruct (decide (c ∈ columns (Pandas.drop_ignore T
        (filter (λ c, F64.gt (missing_proportion_of c) F64.lit_0_9 = true) (series T)).*1)))
      as [|Hout]; [done|].
    apply (Hiff c vals Hin) in Hout. unfold missingness_ratio in Hout.
    rewrite H10, H9 in Hout. vm_compute in Hout. discriminate.
  - apply (Hiff c vals Hin). unfold missingness_ratio. by rewrite H10, H9.
Qed.

Lemma remove_high_missing_columns_iff_witness :
  ∃ r w' R,
    run (remove_high_missing_columns 1%positive F64.lit_0_9) (world_of notes_table)
      = (Returned r, w')
    ∧ heap w' !! r = Some R
    ∧ (∀ c vals, (c, vals) ∈ series notes_table →
         (c ∉ columns R ↔ F64.gt (missingness_ratio notes_table vals) F64.lit_0_9 = true))
    ∧ (∀ c vals, (c, vals) ∈ series notes_table → n_rows notes_table = 10 →
         count_missing vals = 9 →
         (F64.lit_0_9 = F64.lit_0_9 → c ∈ columns R)
         ∧ (F64.lit_0_9 = F64.lit_0_8 → c ∉ columns R)).
Proof.
  apply (remove_high_missing_columns_iff (world_of notes_table) 1%positive notes_table
           F64.lit_0_9).
  - reflexivity.
  - unfold wf_frame. apply (bool_decide_unpack _). vm_compute. exact I.
  - apply (bool_decide_unpack _). vm_compute. exact I.
  - vm_compute. lia.
Defined.

(** The scenario on the code itself: [Notes] stays at 0.9 and goes at 0.8. *)
Example notes_kept_at_0_9 :
  ∃ r w', run (remove_high_missing_columns 1%positive F64.lit_0_9) (world_of notes_table)
            = (Returned r, w')
          ∧ (columns <$> heap w' !! r) = Some ["Id"; "Notes"]
          ∧ stdout w' = [ColumnsDropped []].
Proof. eexists _, _. split; [vm_compute; reflexivity|]. split; vm_compute; reflexivity. Qed.

Example notes_dropped_at_0_8 :
  ∃ r w', run (remove_high_missing_columns 1%positive F64.lit_0_8) (world_of notes_table)
            = (Returned r, w')
          ∧ (columns <$> heap w' !! r) = Some ["Id"]
          ∧ stdout w' = [ColumnsDropped ["Notes"]].
Proof. eexists _, _. split; [vm_compute; reflexivity|]. split; vm_compute; reflexivity. Qed.

(** A table from which the columns above the threshold were dropped has none
    left above it. *)
Lemma columns_to_drop_after_drop T t :
  let R := Pandas.drop_ignore T
             (filter (λ c, F64.gt (missing_proportion_of c) t = true) (series T)).*1 in
  filter (λ c, F64.gt (missing_proportion_of c) t = true) (series R) = [].
Proof.
  cbv zeta. apply filter_none. intros [k v] Hin Hgt.
  unfold Pandas.drop_ignore in Hin. simpl in Hin.
  apply list_elem_of_filter in Hin as [Hout Hin]. apply Hout. simpl.
  apply elem_of_columns_to_drop. by exists v.
Qed.

(** C6: applying the function to its own result, with the same threshold,
    returns a table equal to that result. *)
Theorem remove_high_missing_columns_idempotent w df T t :
  heap w !! df = Some T →
  ∃ r1 w1 r2 w2 R,
    run (remove_high_missing_columns df t) w = (Returned r1, w1)
    ∧ heap w1 !! r1 = Some R
    ∧ run (remove_high_missing_columns r1 t) w1 = (Returned r2, w2)
    ∧ heap w2 !! r2 = Some R
    ∧ heap w2 !! r1 = Some R.
Proof.
  intros Hdf.
  destruct (remove_high_missing_columns_returns w df T t Hdf)
    as (r1 & w1 & Hrun1 & _ & _ & Hr1).
  destruct (remove_high_missing_columns_returns w1 r1 _ t Hr1)
    as (r2 & w2 & Hrun2 & _ & Hr1' & Hr2).
  exists r1, w1, r2, w2. eexists. split; [done|]. split; [done|]. split; [done|].
  split; [|done]. rewrite Hr2. f_equal.
  rewrite columns_to_drop_after_drop. apply drop_ignore_nothing.
  intros k Hk. by apply elem_of_nil in Hk.
Qed.

Lemma remove_high_missing_columns_idempotent_witness :
  ∃ r1 w1 r2 w2 R,
    run (remove_high_missing_columns 1%positive F64.lit_0_8) (world_of notes_table)
      = (Returned r1, w1)
    ∧ heap w1 !! r1 = Some R
    ∧ run (remove_high_missing_columns r1 F64.lit_0_8) w1 = (Returned r2, w2)
    ∧ heap w2 !! r2 = Some R
    ∧ heap w2 !! r1 = Some R.
Proof.
  apply (remove_high_missing_columns_idempotent (world_of notes_table) 1%positive
           notes_table F64.lit_0_8).
  reflexivity.
Defined.

(** C7: on a table without rows the call returns, for every threshold, and
    the returned table is the table itself: every proportion is [NaN], which
    no threshold is below, so no column is dropped. *)
Theorem remove_high_missing_columns_no_rows w df T t :
  heap w !! df = Some T →
  wf_frame T →
  n_rows T = 0 →
  ∃ r w',
    run (remove_high_missing_columns df t) w = (Returned r, w')
    ∧ heap w' !! r = Some T
    ∧ stdout w' = stdout w ++ [ColumnsDropped []].
Proof.
  intros Hdf Hwf Hn.
  assert (Hnone : filter (λ c, F64.gt (missing_proportion_of c) t = true) (series T) = []).
  { apply filter_none. intros c Hin.
    rewrite (missing_proportion_no_rows T c) by done. by rewrite gt_nan. }
  rewrite (remove_high_missing_columns_run _ _ T) by done. cbv zeta.
  rewrite columns_to_drop_labels, Hnone. simpl.
  eexists _, _. split; [reflexivity|]. simpl.
  split; [|done]. rewrite lookup_insert_eq. f_equal.
  apply drop_ignore_nothing. intros k Hk. by apply elem_of_nil in Hk.
Qed.

Lemma remove_high_missing_columns_no_rows_witness :
  ∃ r w',
    run (remove_high_missing_columns 1%positive F64.lit_0_9) (world_of empty_table)
      = (Returned r, w')
    ∧ heap w' !! r = Some empty_table
    ∧ stdout w' = stdout (world_of empty_table) ++ [ColumnsDropped []].
Proof.
  apply (remove_high_missing_columns_no_rows (world_of empty_table) 1%positive
           empty_table F64.lit_0_9).
  - reflexivity.
  - unfold wf_frame. apply (bool_decide_unpack _). vm_compute. exact I.
  - reflexivity.
Defined.

(** C10: the returned table has the rows of the table it was made from: as
    many, and in every column that stays the same cells in the same order;
    the columns that stay keep their order, and the table passed in is as it
    was. *)
Theorem remove_high_missing_columns_frame w df T t :
  heap w !! df = Some T →
  ∃ r w' R,
    run (remove_high_missing_columns df t) w = (Returned r, w')
    ∧ heap w' !! r = Some R
    ∧ n_rows R = n_rows T
    ∧ sublist (series R) (series T)
    ∧ (∀ c, c ∈ columns R → ∀ i, cell R c i = cell T c i)
    ∧ heap w' !! df = Some T.
Proof.
  intros Hdf.
  destruct (remove_high_missing_columns_returns w df T t Hdf)
    as (r & w' & Hrun & _ & Hdf' & Hr).
  eexists r, w', _. split; [done|]. split; [done|].
  split; [done|].
  split; [apply sublist_filter|].
  split; [|done].
  intros c Hc i. rewrite columns_drop_ignore in Hc.
  apply list_elem_of_filter in Hc as [Hout _].
  unfold cell, Pandas.drop_ignore. simpl.
  rewrite list_filter_filter.
  rewrite (list_filter_iff _ (λ c0, c0.1 = c)); [done|].
  intros [k v]. simpl. split; [tauto|]. intros ->. done.
Qed.

Lemma remove_high_missing_columns_frame_witness :
  ∃ r w' R,
    run (remove_high_missing_columns 1%positive F64.lit_0_8) (world_of notes_table)
      = (Returned r, w')
    ∧ heap w' !! r = Some R
    ∧ n_rows R = n_rows notes_table
    ∧ sublist (series R) (series notes_table)
    ∧ (∀ c, c ∈ columns R → ∀ i, cell R c i = cell notes_table c i)
    ∧ heap w' !! 1%positive = Some notes_table.
Proof.
  apply (remove_high_missing_columns_frame (world_of notes_table) 1%positive
           notes_table F64.lit_0_8).
  reflexivity.
Defined.

(** ** The count summaries of dash2.py *)

Lemma bump_total v counts :
  sum_list_with snd (Pandas.bump v counts) = S (sum_list_with snd counts).
Proof.
  induction counts as [|[k n] counts IH]; [done|].
  simpl. destruct (py_eq k v); simpl; [done|]. rewrite IH. lia.
Qed.

Lemma foldl_bump_total vals counts :
  sum_list_with snd (foldl (λ counts v, Pandas.bump v counts) counts vals)
  = sum_list_with snd counts + length vals.
Proof.
  revert counts. induction vals as [|v vals IH]; intros counts; simpl; [lia|].
  rewrite IH, bump_total. lia.
Qed.

(** The counts of [value_counts] add up to the number of cells that are not
    missing. *)
Lemma value_counts_total s :
  sum_list_with snd (Pandas.value_counts s) = count_present s.
Proof.
  unfold Pandas.value_counts. rewrite merge_sort_Permutation.
  by rewrite foldl_bump_total.
Qed.

Lemma sum_counts_numbers (counts : list (value * nat)) :
  sum_counts ((λ n, VNum (Z.of_nat n)) <$> counts.*2) = Z.of_nat (sum_list_with snd counts).
Proof.
  induction counts as [|[k n] counts IH]; [done|].
  rewrite !fmap_cons. simpl. rewrite IH. lia.
Qed.

(** What [count_table] returns for a column the table has. *)
Lemma count_table_run d column key count vals w :
  Pandas.getitem d column = Returned vals →
  run (count_table d column key count) w =
    (Returned (mkDataFrame (length (Pandas.value_counts vals))
                 [(key, (Pandas.value_counts vals).*1);
                  (count, (λ n, VNum (Z.of_nat n)) <$> (Pandas.value_counts vals).*2)]),
     w).
Proof.
  intros Hcol. unfold run, count_table, mbind, M_bind, lift. by rewrite Hcol.
Qed.

Lemma count_table_missing d column key count w :
  column ∉ columns d →
  run (count_table d column key count) w = (Raised (KeyError [column]), w).
Proof.
  intros Hcol. unfold run, count_table, mbind, M_bind, lift, Pandas.getitem.
  by rewrite filter_label_absent.
Qed.

(** The chart of a table of counts: refused exactly when the colour is. *)
Lemma px_bar_counts n key keys counts c :
  px_bar (mkDataFrame n [(key, keys); ("Count", counts)]) key "Count" c
  = if valid_colour c
    then Returned (Figure (mkDataFrame n [(key, keys); ("Count", counts)]) key "Count")
    else Raised (ValueError "Invalid value for the 'color' property of bar.marker").
Proof.
  unfold px_bar. rewrite bool_decide_eq_true_2; [done|].
  unfold columns. simpl. split; [left|right; left].
Qed.

(** Rows selected by a mask, column by column. *)
Lemma getitem_getitem_mask T mask label vals :
  Pandas.getitem T label = Returned vals →
  Pandas.getitem (Pandas.getitem_mask T mask) label = Returned (Pandas.select mask vals).
Proof.
  unfold Pandas.getitem, Pandas.getitem_mask. simpl.
  induction (series T) as [|[k v] S IH]; [done|].
  rewrite fmap_cons, !filter_cons. simpl.
  destruct (decide (k = label)); [|done]. by intros [= ->].
Qed.

(** What lines 287-294 bind to [political_counts] on a table that has the
    column. *)
Lemma political_counts_run w df T selected vals :
  heap w !! df = Some T →
  Pandas.getitem T "Political_Affiliation" = Returned vals →
  run (political_counts df selected) w =
    (Returned
       (mkDataFrame (length (Pandas.value_counts (affiliations_counted selected vals)))
          [("Political_Affiliation",
              (Pandas.value_counts (affiliations_counted selected vals)).*1);
           ("Count", (λ n, VNum (Z.of_nat n))
                       <$> (Pandas.value_counts (affiliations_counted selected vals)).*2)]),
     w).
Proof.
  intros Hdf Hcol. unfold run, political_counts, affiliations_counted.
  rewrite (bind_returned _ _ w T w) by by apply deref_returned.
  destruct (nothing_selected selected).
  - rewrite (bind_returned _ _ w T w) by done.
    by apply (count_table_run T "Political_Affiliation").
  - rewrite (bind_returned _ _ w
               (Pandas.getitem_mask T (Pandas.isin (default [] selected) <$> vals)) w).
    + apply (count_table_run _ "Political_Affiliation"). by apply getitem_getitem_mask.
    + rewrite (bind_returned _ _ w vals w); [done|]. unfold lift. by rewrite Hcol.
Qed.

(** C8: without a selection, lines 287-294 of [update_political_chart] count
    the whole table, and the counts of the summary they bind to
    [political_counts] add up to the number of rows whose affiliation is not
    missing; the same holds for the two summaries computed at start-up.  The
    world is left as it was.  (What line 296 then does with the summary is
    [update_political_chart_raises].) *)
Theorem unfiltered_counts_total w df T :
  heap w !! df = Some T →
  (∀ selected vals,
      nothing_selected selected = true →
      Pandas.getitem T "Political_Affiliation" = Returned vals →
      ∃ summary counts,
        run (political_counts df selected) w = (Returned summary, w)
        ∧ Pandas.getitem summary "Count" = Returned counts
        ∧ sum_counts counts = Z.of_nat (count_present vals))
  ∧ (∀ vals,
      Pandas.getitem T "What_is_your_favorite_coffee_drink" = Returned vals →
      ∃ summary counts,
        run (favorite_coffee_counts df) w = (Returned summary, w)
        ∧ Pandas.getitem summary "Count" = Returned counts
        ∧ sum_counts counts = Z.of_nat (count_present vals))
  ∧ (∀ vals,
      Pandas.getitem T "Employment_Status" = Returned vals →
      ∃ summary counts,
        run (employment_counts df) w = (Returned summary, w)
        ∧ Pandas.getitem summary "Count" = Returned counts
        ∧ sum_counts counts = Z.of_nat (count_present vals)).
Proof.
  intros Hdf. split; [|split].
  - intros selected vals Hsel Hcol.
    eexists _, ((λ n, VNum (Z.of_nat n)) <$> (Pandas.value_counts vals).*2). split.
    + rewrite (political_counts_run w df T selected vals Hdf Hcol).
      unfold affiliations_counted. rewrite Hsel. reflexivity.
    + split; [reflexivity|]. by rewrite sum_counts_numbers, value_counts_total.
  - intros vals Hcol.
    pose proof (count_table_run T "What_is_your_favorite_coffee_drink" "Coffee_Drink" "Count"
                  vals w Hcol) as Hrun.
    eexists _, ((λ n, VNum (Z.of_nat n)) <$> (Pandas.value_counts vals).*2). split.
    + unfold run, favorite_coffee_counts, mbind, M_bind, deref in *.
      rewrite Hdf. exact Hrun.
    + split; [reflexivity|]. by rewrite sum_counts_numbers, value_counts_total.
  - intros vals Hcol.
    pose proof (count_table_run T "Employment_Status" "Status" "Count"
                  vals w Hcol) as Hrun.
    eexists _, ((λ n, VNum (Z.of_nat n)) <$> (Pandas.value_counts vals).*2). split.
    + unfold run, employment_counts, mbind, M_bind, deref in *.
      rewrite Hdf. exact Hrun.
    + split; [reflexivity|]. by rewrite sum_counts_numbers, value_counts_total.
Qed.

Lemma unfiltered_counts_total_witness :
  (∃ summary counts,
      run (political_counts 1%positive None) (world_of survey_table)
        = (Returned summary, world_of survey_table)
      ∧ Pandas.getitem summary "Count" = Returned counts
      ∧ sum_counts counts = 4%Z)
  ∧ (∃ summary counts,
      run (favorite_coffee_counts 1%positive) (world_of survey_table)
        = (Returned summary, world_of survey_table)
      ∧ Pandas.getitem summary "Count" = Returned counts
      ∧ sum_counts counts = 4%Z)
  ∧ (∃ summary counts,
      run (employment_counts 1%positive) (world_of survey_table)
        = (Returned summary, world_of survey_table)
      ∧ Pandas.getitem summary "Count" = Returned counts
      ∧ sum_counts counts = 3%Z).
Proof.
  destruct (unfiltered_counts_total (world_of survey_table) 1%positive survey_table
              eq_refl) as (Hpolitical & Hcoffee & Hemployment).
  split; [|split].
  - exact (Hpolitical None _ eq_refl eq_refl).
  - exact (Hcoffee _ eq_refl).
  - exact (Hemployment _ eq_refl).
Defined.

Example political_summary :
  (run (political_counts 1%positive (Some [])) (world_of survey_table)).1
  = Returned (mkDataFrame 3
                [("Political_Affiliation",
                    [VStr "Independent"; VStr "Republican"; VStr "Democrat"]);
                 ("Count", [VNum 2; VNum 1; VNum 1])]).
Proof. vm_compute. reflexivity. Qed.

Lemma select_no_match (mask : list bool) vals :
  (∀ b, b ∈ mask → b = false) → Pandas.select mask vals = [].
Proof.
  intros Hmask. unfold Pandas.select.
  rewrite (filter_none (λ p : bool * value, p.1 = true)); [done|].
  intros [b v] Hin%elem_of_zip_l Hb. simpl in Hb. by rewrite (Hmask b Hin) in Hb.
Qed.

(** C9: when no row has the selected number of cups, the callback returns,
    and the summary it charts has its two columns and no row.  The world is
    left as it was. *)
Theorem update_age_consumption_no_match w df T selected_cups cups ages :
  heap w !! df = Some T →
  Pandas.getitem T "How_many_cups_of_coffee_do_you_typically_drink_per_day"
    = Returned cups →
  Pandas.getitem T "What_is_your_age" = Returned ages →
  (∀ c, c ∈ cups → py_eq c selected_cups = false) →
  ∃ fig,
    run (update_age_consumption df selected_cups) w = (Returned fig, w)
    ∧ data_frame fig = mkDataFrame 0 [("Age_Group", []); ("Count", [])].
Proof.
  intros Hdf Hcups Hages Hnone.
  set (mask := (λ v, py_eq v selected_cups) <$> cups).
  assert (Hsel : Pandas.select mask ages = []).
  { apply select_no_match. intros b (c & -> & Hc)%list_elem_of_fmap. by apply Hnone. }
  pose proof (getitem_getitem_mask T mask _ _ Hages) as Hfiltered.
  rewrite Hsel in Hfiltered.
  pose proof (count_table_run _ "What_is_your_age" "Age_Group" "Count" [] w Hfiltered)
    as Hrun.
  eexists. split.
  - unfold run, update_age_consumption, mbind, M_bind, deref, lift in *.
    rewrite Hdf, Hcups. fold mask. rewrite Hrun. reflexivity.
  - reflexivity.
Qed.

(** The scenario of the specification: nobody drinks three cups a day. *)
Lemma update_age_consumption_no_match_witness :
  ∃ fig,
    run (update_age_consumption 1%positive (VNum 3)) (world_of survey_table)
      = (Returned fig, world_of survey_table)
    ∧ data_frame fig = mkDataFrame 0 [("Age_Group", []); ("Count", [])].
Proof.
  apply (update_age_consumption_no_match (world_of survey_table) 1%positive survey_table
           (VNum 3) _ _ eq_refl eq_refl eq_refl).
  apply (proj1 (Forall_forall (λ c, py_eq c (VNum 3) = false) _)).
  apply (bool_decide_unpack _). vm_compute. exact I.
Defined.

(** A cleared dropdown passes [None]: no row matches either. *)
Example update_age_consumption_none :
  ∃ fig,
    run (update_age_consumption 1%positive VMissing) (world_of survey_table)
      = (Returned fig, world_of survey_table)
    ∧ data_frame fig = mkDataFrame 0 [("Age_Group", []); ("Count", [])].
Proof. eexists. split; vm_compute; reflexivity. Qed.

(** * Further properties *)

(** ** combine_columns: errors and edge cases *)

(** X1: the call raises exactly when the group names a label the table does
    not have; the [KeyError] carries the absent labels in the order of the
    group, and the world, the table passed in included, is as before. *)
Theorem combine_columns_raises_exactly w df T G name sep :
  heap w !! df = Some T →
  (filter (λ l, l ∉ columns T) G ≠ [] →
     run (combine_columns df G name sep) w
     = (Raised (KeyError (filter (λ l, l ∉ columns T) G)), w))
  ∧ (filter (λ l, l ∉ columns T) G = [] →
     ∃ r w', run (combine_columns df G name sep) w = (Returned r, w')).
Proof.
  intros Hdf. rewrite (combine_columns_run _ _ T) by done.
  unfold Pandas.getitem_list.
  destruct (filter (λ l, l ∉ columns T) G) as [|m ms]; split; try done.
  intros _. cbv zeta. by eexists _, _.
Qed.

Lemma combine_columns_raises_exactly_witness :
  (filter (λ l, l ∉ columns drinks_table) ["Age"; "Tea"; "OtherDrink"; "Milk"] ≠ [] →
     run (combine_columns 1%positive ["Age"; "Tea"; "OtherDrink"; "Milk"] "Drinks" "; ")
         (world_of drinks_table)
     = (Raised (KeyError (filter (λ l, l ∉ columns drinks_table)
                                 ["Age"; "Tea"; "OtherDrink"; "Milk"])),
        world_of drinks_table))
  ∧ (filter (λ l, l ∉ columns drinks_table) ["Age"; "Tea"; "OtherDrink"; "Milk"] = [] →
     ∃ r w', run (combine_columns 1%positive ["Age"; "Tea"; "OtherDrink"; "Milk"]
                    "Drinks" "; ") (world_of drinks_table) = (Returned r, w')).
Proof.
  apply (combine_columns_raises_exactly (world_of drinks_table) 1%positive drinks_table).
  reflexivity.
Defined.

(** X2: no column of the group is in the returned table.  When the new name
    is itself in the group, the combined column is therefore not in the
    returned table: it is left behind in the table that was passed in. *)
Theorem combine_columns_drops_group w df T G name sep :
  heap w !! df = Some T →
  G ⊆ columns T →
  ∃ r w' R T',
    run (combine_columns df G name sep) w = (Returned r, w')
    ∧ heap w' !! r = Some R
    ∧ heap w' !! df = Some T'
    ∧ (∀ c, c ∈ G → c ∉ columns R)
    ∧ (name ∈ G → (name ∉ columns R) ∧ n_rows R = n_rows T
                  ∧ columns T' = columns T
                  ∧ Pandas.getitem T' name
                    = Returned (combined_column G sep
                        (mkDataFrame (n_rows T)
                           (flat_map (λ l, filter (λ c, c.1 = l) (series T)) G)))).
Proof.
  intros Hdf Hsub. rewrite (combine_columns_run _ _ T) by done.
  rewrite getitem_list_present by done. cbv zeta.
  set (vals := combined_column G sep _).
  set (h := <[df := Pandas.setitem T name vals]> (heap w)).
  assert (Hfresh : fresh (dom h) ≠ df).
  { apply (fresh_heap_ne h df (Pandas.setitem T name vals)). apply lookup_insert_eq. }
  eexists _, _, _, _. split; [reflexivity|]. simpl.
  split; [by rewrite lookup_insert_eq|].
  split; [rewrite lookup_insert_ne by done; unfold h; by rewrite lookup_insert_eq|].
  assert (Hgone : ∀ c, c ∈ G → c ∉ columns (Pandas.drop_ignore (Pandas.setitem T name vals) G)).
  { intros c Hc. rewrite columns_drop_ignore. by intros [Hout _]%list_elem_of_filter. }
  split; [done|].
  intros Hname. split; [by apply Hgone|]. split; [unfold Pandas.setitem; by case_bool_decide|].
  split; [|apply getitem_setitem].
  rewrite columns_setitem. rewrite bool_decide_eq_true_2; [done|by apply Hsub].
Qed.

Lemma combine_columns_drops_group_witness :
  ∃ r w' R T',
    run (combine_columns 1%positive drinks_group "OtherDrink" "; ") (world_of drinks_table)
      = (Returned r, w')
    ∧ heap w' !! r = Some R
    ∧ heap w' !! 1%positive = Some T'
    ∧ (∀ c, c ∈ drinks_group → c ∉ columns R)
    ∧ ("OtherDrink" ∈ drinks_group →
         ("OtherDrink" ∉ columns R) ∧ n_rows R = n_rows drinks_table
         ∧ columns T' = columns drinks_table
         ∧ Pandas.getitem T' "OtherDrink"
           = Returned (combined_column drinks_group "; "
               (mkDataFrame (n_rows drinks_table)
                  (flat_map (λ l, filter (λ c, c.1 = l) (series drinks_table))
                            drinks_group)))).
Proof.
  apply (combine_columns_drops_group (world_of drinks_table) 1%positive drinks_table
           drinks_group "OtherDrink" "; ").
  - reflexivity.
  - apply (bool_decide_unpack _). vm_compute. exact I.
Defined.

Example combine_columns_name_in_group :
  ∃ r w',
    run (combine_columns 1%positive drinks_group "OtherDrink" "; ") (world_of drinks_table)
      = (Returned r, w')
    ∧ heap w' !! r = Some (mkDataFrame 1 [("Age", [VStr "25-34"])])
    ∧ heap w' !! 1%positive
      = Some (mkDataFrame 1 [("Prefers (Latte)", [VBool true]);
                             ("Prefers (Cortado)", [VBool false]);
                             ("OtherDrink", [VStr "Latte"]);
                             ("Age", [VStr "25-34"])]).
Proof. eexists _, _. split; [vm_compute; reflexivity|]. split; vm_compute; reflexivity. Qed.

(** X3: when the table already has a column of the new name, outside the
    group, that column is overwritten where it stands: the returned table
    has the columns of the table outside the group, in their order, so
    [|G|] fewer and none more; the column [name] holds the combined values
    and the other columns keep their cells. *)
Theorem combine_columns_overwrites w df T G name sep :
  heap w !! df = Some T →
  NoDup (columns T) →
  NoDup G →
  G ⊆ columns T →
  name ∈ columns T →
  name ∉ G →
  ∃ r w' R vals,
    run (combine_columns df G name sep) w = (Returned r, w')
    ∧ heap w' !! r = Some R
    ∧ columns R = filter (λ c, c ∉ G) (columns T)
    ∧ length (columns R) + length G = length (columns T)
    ∧ Pandas.getitem R name = Returned vals
    ∧ (∀ i, i < n_rows T → vals !! i = Some (joined_labels selected_label T G sep i))
    ∧ (∀ c cv, c ≠ name → ((c, cv) ∈ series R ↔ ((c, cv) ∈ series T ∧ c ∉ G))).
Proof.
  intros Hdf Hnd HG Hsub Hin Hout. rewrite (combine_columns_run _ _ T) by done.
  rewrite getitem_list_present by done. cbv zeta.
  set (vals := combined_column G sep _).
  eexists _, _, _, vals. split; [reflexivity|]. simpl.
  split; [by rewrite lookup_insert_eq|].
  assert (HC : columns (Pandas.drop_ignore (Pandas.setitem T name vals) G)
               = filter (λ c, c ∉ G) (columns T)).
  { by rewrite columns_drop_ignore, columns_setitem, bool_decide_eq_true_2. }
  split; [done|].
  split; [rewrite HC; by apply length_filter_group|].
  split; [by apply getitem_new_column|].
  split; [intros i Hi; by apply combined_column_lookup|].
  intros c cv Hc. unfold Pandas.drop_ignore. simpl.
  rewrite list_elem_of_filter, series_setitem_other by done. simpl. tauto.
Qed.

Lemma combine_columns_overwrites_witness :
  ∃ r w' R vals,
    run (combine_columns 1%positive ["Prefers (Latte)"; "Other"] "Drinks" "; ")
        (world_of refill_table) = (Returned r, w')
    ∧ heap w' !! r = Some R
    ∧ columns R = filter (λ c, c ∉ ["Prefers (Latte)"; "Other"]) (columns refill_table)
    ∧ length (columns R) + length ["Prefers (Latte)"; "Other"]
      = length (columns refill_table)
    ∧ Pandas.getitem R "Drinks" = Returned vals
    ∧ (∀ i, i < n_rows refill_table →
         vals !! i = Some (joined_labels selected_label refill_table
                             ["Prefers (Latte)"; "Other"] "; " i))
    ∧ (∀ c cv, c ≠ "Drinks" →
         ((c, cv) ∈ series R
          ↔ ((c, cv) ∈ series refill_table ∧ c ∉ ["Prefers (Latte)"; "Other"]))).
Proof.
  apply (combine_columns_overwrites (world_of refill_table) 1%positive refill_table
           ["Prefers (Latte)"; "Other"] "Drinks" "; ").
  - reflexivity.
  - apply (bool_decide_unpack _). vm_compute. exact I.
  - apply (bool_decide_unpack _). vm_compute. exact I.
  - apply (bool_decide_unpack _). vm_compute. exact I.
  - apply (bool_decide_unpack _). vm_compute. exact I.
  - apply (bool_decide_unpack _). vm_compute. exact I.
Defined.

Example combine_columns_refill :
  ∃ r w',
    run (combine_columns 1%positive ["Prefers (Latte)"; "Other"] "Drinks" "; ")
        (world_of refill_table) = (Returned r, w')
    ∧ heap w' !! r
      = Some (mkDataFrame 2 [("Drinks", [VStr "Latte; Mocha"; VStr ""]);
                             ("Age", [VStr "25-34"; VStr "35-44"])]).
Proof. eexists _, _. split; vm_compute; reflexivity. Qed.

(** X4: with an empty group nothing is selected and nothing is dropped: the
    table passed in gets the column [name] with the empty string in every
    row, and the returned table is a new object that is equal to it. *)
Theorem combine_columns_empty_group w df T name sep :
  heap w !! df = Some T →
  ∃ r w',
    run (combine_columns df [] name sep) w = (Returned r, w')
    ∧ r ≠ df
    ∧ heap w' !! df
      = Some (Pandas.setitem T name (replicate (n_rows T) (VStr "")))
    ∧ heap w' !! r = heap w' !! df
    ∧ (name ∉ columns T →
       heap w' !! r
       = Some (mkDataFrame (n_rows T)
                 (series T ++ [(name, replicate (n_rows T) (VStr ""))]))).
Proof.
  intros Hdf. rewrite (combine_columns_run _ _ T) by done.
  rewrite getitem_list_present by (intros c Hc; by apply elem_of_nil in Hc). cbv zeta.
  assert (Hvals : combined_column [] sep (mkDataFrame (n_rows T) [])
                  = replicate (n_rows T) (VStr "")).
  { unfold combined_column, Pandas.apply_axis1, Pandas.rows. simpl.
    rewrite <- list_fmap_compose. generalize 0.
    induction (n_rows T) as [|n IH]; intros k; [done|]. simpl. f_equal. apply IH. }
  simpl flat_map. rewrite Hvals.
  set (T' := Pandas.setitem T name _).
  set (h := <[df := T']> (heap w)).
  assert (Hfresh : fresh (dom h) ≠ df).
  { apply (fresh_heap_ne h df T'). apply lookup_insert_eq. }
  assert (Hdrop : Pandas.drop_ignore T' [] = T').
  { apply drop_ignore_nothing. intros k Hk. by apply elem_of_nil in Hk. }
  rewrite Hdrop.
  eexists _, _. split; [reflexivity|]. simpl.
  split; [done|].
  assert (Hdf' : <[fresh (dom h) := T']> h !! df = Some T').
  { rewrite lookup_insert_ne by done. unfold h. by rewrite lookup_insert_eq. }
  split; [done|].
  split; [by rewrite Hdf', lookup_insert_eq|].
  intros Hname. rewrite lookup_insert_eq. f_equal.
  unfold T', Pandas.setitem. by rewrite bool_decide_eq_false_2.
Qed.

Lemma combine_columns_empty_group_witness :
  ∃ r w',
    run (combine_columns 1%positive [] "Drinks" "; ") (world_of drinks_table)
      = (Returned r, w')
    ∧ r ≠ 1%positive
    ∧ heap w' !! 1%positive
      = Some (Pandas.setitem drinks_table "Drinks"
                (replicate (n_rows drinks_table) (VStr "")))
    ∧ heap w' !! r = heap w' !! 1%positive
    ∧ ("Drinks" ∉ columns drinks_table →
       heap w' !! r
       = Some (mkDataFrame (n_rows drinks_table)
                 (series drinks_table
                    ++ [("Drinks", replicate (n_rows drinks_table) (VStr ""))]))).
Proof.
  apply (combine_columns_empty_group (world_of drinks_table) 1%positive drinks_table).
  reflexivity.
Defined.

(** ** The cleaning functions keep tables well formed *)

Lemma wf_setitem T name vals :
  wf_frame T → length vals = n_rows T → wf_frame (Pandas.setitem T name vals).
Proof.
  unfold wf_frame, Pandas.setitem. intros Hwf Hlen. case_bool_decide; simpl.
  - apply Forall_fmap. eapply Forall_impl; [exact Hwf|].
    intros [k v] Hk. simpl in *. by case_bool_decide.
  - apply Forall_app. split; [done|]. by apply Forall_singleton.
Qed.

Lemma wf_drop_ignore T D : wf_frame T → wf_frame (Pandas.drop_ignore T D).
Proof.
  unfold wf_frame, Pandas.drop_ignore. simpl. intros Hwf.
  rewrite Forall_forall in *. intros c [_ Hc]%list_elem_of_filter. by apply Hwf.
Qed.

Lemma NoDup_columns_setitem T name vals :
  NoDup (columns T) → NoDup (columns (Pandas.setitem T name vals)).
Proof.
  intros Hnd. rewrite columns_setitem. case_bool_decide; [done|].
  apply NoDup_app. split; [done|]. split; [|apply NoDup_singleton].
  intros c Hc ->%list_elem_of_singleton. done.
Qed.

Lemma NoDup_columns_drop_ignore T D :
  NoDup (columns T) → NoDup (columns (Pandas.drop_ignore T D)).
Proof. intros Hnd. rewrite columns_drop_ignore. by apply NoDup_filter. Qed.

(** X5: [combine_columns] keeps tables well formed.  From a table with one
    cell per row in every column and distinct labels, both the table passed
    in, as the call leaves it, and the returned table have one cell per row
    in every column, distinct labels and the rows of the original. *)
Theorem combine_columns_well_formed w df T G name sep :
  heap w !! df = Some T →
  wf_frame T →
  NoDup (columns T) →
  G ⊆ columns T →
  ∃ r w' R T',
    run (combine_columns df G name sep) w = (Returned r, w')
    ∧ heap w' !! r = Some R
    ∧ heap w' !! df = Some T'
    ∧ wf_frame R ∧ NoDup (columns R) ∧ n_rows R = n_rows T
    ∧ wf_frame T' ∧ NoDup (columns T') ∧ n_rows T' = n_rows T.
Proof.
  intros Hdf Hwf Hnd Hsub. rewrite (combine_columns_run _ _ T) by done.
  rewrite getitem_list_present by done. cbv zeta.
  set (vals := combined_column G sep _).
  assert (Hlen : length vals = n_rows T) by (unfold vals; by rewrite length_combined_column).
  set (h := <[df := Pandas.setitem T name vals]> (heap w)).
  assert (Hfresh : fresh (dom h) ≠ df).
  { apply (fresh_heap_ne h df (Pandas.setitem T name vals)). apply lookup_insert_eq. }
  assert (Hrows : n_rows (Pandas.setitem T name vals) = n_rows T).
  { unfold Pandas.setitem. by case_bool_decide. }
  eexists _, _, _, _. split; [reflexivity|]. simpl.
  split; [by rewrite lookup_insert_eq|].
  split; [rewrite lookup_insert_ne by done; unfold h; by rewrite lookup_insert_eq|].
  split; [by apply wf_drop_ignore, wf_setitem|].
  split; [by apply NoDup_columns_drop_ignore, NoDup_columns_setitem|].
  split; [done|].
  split; [by apply wf_setitem|].
  split; [by apply NoDup_columns_setitem|done].
Qed.

Lemma combine_columns_well_formed_witness :
  ∃ r w' R T',
    run (combine_columns 1%positive ["Prefers (Latte)"; "Other"] "Drinks" "; ")
        (world_of refill_table) = (Returned r, w')
    ∧ heap w' !! r = Some R
    ∧ heap w' !! 1%positive = Some T'
    ∧ wf_frame R ∧ NoDup (columns R) ∧ n_rows R = n_rows refill_table
    ∧ wf_frame T' ∧ NoDup (columns T') ∧ n_rows T' = n_rows refill_table.
Proof.
  apply (combine_columns_well_formed (world_of refill_table) 1%positive refill_table
           ["Prefers (Latte)"; "Other"] "Drinks" "; ").
  - reflexivity.
  - unfold wf_frame. apply (bool_decide_unpack _). vm_compute. exact I.
  - apply (bool_decide_unpack _). vm_compute. exact I.
  - apply (bool_decide_unpack _). vm_compute. exact I.
Defined.

(** ** The label of a column *)

Section ColumnLabel.
Implicit Types (s : string) (c d : ascii).

Lemma char_in_split c s x : x ∈ PyStr.split c s → char_in c x = false.
Proof.
  revert x. induction s as [|a s IH]; intros x Hx; simpl in Hx.
  - by apply list_elem_of_singleton in Hx as ->.
  - destruct (Ascii.eqb a c) eqn:Ea.
    + apply elem_of_cons in Hx as [->|Hx]; [done|by apply IH].
    + destruct (PyStr.split c s) as [|h t].
      * apply list_elem_of_singleton in Hx as ->. simpl. by rewrite Ea.
      * apply elem_of_cons in Hx as [->|Hx].
        -- simpl. rewrite Ea. apply IH. left.
        -- apply IH. by right.
Qed.

Lemma split_not_nil c s : PyStr.split c s ≠ [].
Proof. destruct s as [|a s]; simpl; [done|]. destruct (Ascii.eqb a c); [done|]. by destruct (PyStr.split c s). Qed.

Lemma last_elem_of {A} (l : list A) (d : A) : l ≠ [] → List.last l d ∈ l.
Proof.
  induction l as [|a [|b l] IH]; intros Hl; [done|left|].
  right. apply IH. done.
Qed.

Lemma split_no_char c s : char_in c s = false → PyStr.split c s = [s].
Proof.
  induction s as [|a s IH]; [done|]. simpl.
  destruct (Ascii.eqb a c); [done|]. simpl. intros Hs. by rewrite IH.
Qed.

Lemma char_in_remove_same c s : char_in c (PyStr.remove c s) = false.
Proof.
  induction s as [|a s IH]; [done|]. simpl.
  destruct (Ascii.eqb a c) eqn:Ea; [done|]. simpl. by rewrite Ea.
Qed.

Lemma char_in_remove c d s : char_in d s = false → char_in d (PyStr.remove c s) = false.
Proof.
  induction s as [|a s IH]; [done|]. simpl.
  intros [Ha Hs]%orb_false_elim.
  destruct (Ascii.eqb a c); [by apply IH|]. simpl. by rewrite Ha, IH.
Qed.

Lemma remove_no_char c s : char_in c s = false → PyStr.remove c s = s.
Proof.
  induction s as [|a s IH]; [done|]. simpl.
  intros [Ha Hs]%orb_false_elim. rewrite Ha. by rewrite IH.
Qed.

Lemma char_in_lstrip d s : char_in d s = false → char_in d (PyStr.lstrip s) = false.
Proof.
  induction s as [|a s IH]; [done|]. simpl. intros Hs.
  destruct (PyStr.isspace a); [|done].
  apply orb_false_elim in Hs as [_ Hs]. by apply IH.
Qed.

Lemma char_in_rstrip d s : char_in d s = false → char_in d (PyStr.rstrip s) = false.
Proof.
  induction s as [|a s IH]; [done|]. simpl.
  intros [Ha Hs]%orb_false_elim. specialize (IH Hs).
  destruct (PyStr.rstrip s) as [|b r].
  - destruct (PyStr.isspace a); [done|]. simpl. by rewrite Ha.
  - simpl. simpl in IH. by rewrite Ha, IH.
Qed.

Lemma char_in_strip d s : char_in d s = false → char_in d (PyStr.strip s) = false.
Proof. intros Hs. by apply char_in_rstrip, char_in_lstrip. Qed.

Lemma lstrip_starts_clean s : starts_clean (PyStr.lstrip s).
Proof.
  induction s as [|a s IH]; [done|]. simpl.
  by destruct (PyStr.isspace a) eqn:Ea.
Qed.

Lemma rstrip_starts_clean s : starts_clean s → starts_clean (PyStr.rstrip s).
Proof.
  destruct s as [|a s]; [done|]. simpl. intros Ha.
  destruct (PyStr.rstrip s); [by rewrite Ha|done].
Qed.

Lemma lstrip_clean s : starts_clean s → PyStr.lstrip s = s.
Proof. destruct s as [|a s]; [done|]. simpl. by intros ->. Qed.

Lemma rstrip_rstrip s : PyStr.rstrip (PyStr.rstrip s) = PyStr.rstrip s.
Proof.
  induction s as [|a s IH]; [done|]. simpl.
  destruct (PyStr.rstrip s) as [|b r] eqn:E.
  - destruct (PyStr.isspace a) eqn:Ea; [done|]. simpl. by rewrite Ea.
  - simpl. simpl in IH. by rewrite IH.
Qed.

(** Trimming a trimmed string changes nothing. *)
Lemma strip_strip s : PyStr.strip (PyStr.strip s) = PyStr.strip s.
Proof.
  unfold PyStr.strip.
  rewrite (lstrip_clean (PyStr.rstrip (PyStr.lstrip s)))
    by apply rstrip_starts_clean, lstrip_starts_clean.
  apply rstrip_rstrip.
Qed.

End ColumnLabel.

(** X6: the label taken from a column name never holds a parenthesis and has
    no white space at either end, whatever the name is. *)
Theorem column_label_clean (col : string) :
  char_in "(" (column_label col) = false
  ∧ char_in ")" (column_label col) = false
  ∧ PyStr.strip (column_label col) = column_label col.
Proof.
  unfold column_label. split; [|split].
  - apply char_in_strip, char_in_remove, (char_in_split _ col).
    apply last_elem_of, split_not_nil.
  - apply char_in_strip, char_in_remove_same.
  - apply strip_strip.
Qed.

(** X7: a name without parentheses is its own label, trimmed. *)
Theorem column_label_plain_name (col : string) :
  char_in "(" col = false →
  char_in ")" col = false →
  column_label col = PyStr.strip col.
Proof.
  intros Hopen Hclose. unfold column_label. by rewrite split_no_char, remove_no_char.
Qed.

Lemma column_label_plain_name_witness : column_label " Decaf " = PyStr.strip " Decaf ".
Proof. apply column_label_plain_name; reflexivity. Defined.

Lemma split_two_segments c (p q : string) :
  ∃ h h' t, PyStr.split c (String.append p (String c q)) = h :: h' :: t.
Proof.
  induction p as [|a p (h & h' & t & IH)]; simpl.
  - rewrite Ascii.eqb_refl. pose proof (split_not_nil c q).
    destruct (PyStr.split c q) as [|h' t]; [done|]. by exists "", h', t.
  - rewrite IH. destruct (Ascii.eqb a c); [by exists "", h, (h' :: t)|].
    by exists (String a h), h', t.
Qed.

(** The last segment of a split is the last segment of what follows any
    separator. *)
Lemma last_split_after c (p q : string) :
  List.last (PyStr.split c (String.append p (String c q))) ""
  = List.last (PyStr.split c q) "".
Proof.
  induction p as [|a p IH]; simpl.
  - rewrite Ascii.eqb_refl. pose proof (split_not_nil c q). by destruct (PyStr.split c q).
  - destruct (split_two_segments c p q) as (h & h' & t & E).
    rewrite E in *. by destruct (Ascii.eqb a c).
Qed.

Lemma remove_app_char c (q : string) :
  PyStr.remove c (String.append q (String c "")) = PyStr.remove c q.
Proof.
  induction q as [|a q IH]; simpl; [by rewrite Ascii.eqb_refl|].
  rewrite IH. done.
Qed.

(** X8: the label is taken from what follows the last opening parenthesis
    of the name: for a name that ends in a qualifier in parentheses, the
    label is the qualifier, trimmed, whatever stands before it. *)
Theorem column_label_qualifier (prefix qualifier : string) :
  char_in "(" qualifier = false →
  char_in ")" qualifier = false →
  column_label (String.append prefix
                  (String "(" (String.append qualifier (String ")" ""))))
  = PyStr.strip qualifier.
Proof.
  intros Hopen Hclose. unfold column_label.
  rewrite last_split_after.
  assert (Hq : char_in "(" (String.append qualifier (String ")" "")) = false).
  { clear Hclose. induction qualifier as [|a q IH]; [done|]. simpl in *.
    apply orb_false_elim in Hopen as [Ha Hq]. by rewrite Ha, IH. }
  rewrite split_no_char by done. simpl.
  by rewrite remove_app_char, remove_no_char.
Qed.

Lemma column_label_qualifier_witness :
  column_label (String.append "Prefers "
                  (String "(" (String.append " Flat White " (String ")" ""))))
  = PyStr.strip " Flat White ".
Proof. apply column_label_qualifier; reflexivity. Defined.

(** ** remove_high_missing_columns: the report, and thresholds together *)

Lemma remove_high_missing_columns_world w df T t :
  heap w !! df = Some T →
  run (remove_high_missing_columns df t) w =
    (Returned (fresh (dom (heap w))),
     World (<[fresh (dom (heap w)) := Pandas.drop_ignore T (labels_above T t)]> (heap w))
           (stdout w ++ [ColumnsDropped (labels_above T t)])).
Proof.
  intros Hdf. rewrite (remove_high_missing_columns_run _ _ T) by done. cbv zeta.
  by rewrite columns_to_drop_labels.
Qed.

(** X9: the call prints one line, and the list it prints is the list of the
    labels that are in the table and not in the returned one; the returned
    table is a new object and every object that existed is as it was. *)
Theorem remove_high_missing_columns_report w df T t :
  heap w !! df = Some T →
  ∃ r w' R dropped,
    run (remove_high_missing_columns df t) w = (Returned r, w')
    ∧ heap w' !! r = Some R
    ∧ stdout w' = stdout w ++ [ColumnsDropped dropped]
    ∧ (∀ c, c ∈ dropped ↔ (c ∈ columns T ∧ c ∉ columns R))
    ∧ (NoDup (columns T) → dropped = filter (λ c, c ∉ columns R) (columns T))
    ∧ heap w !! r = None
    ∧ (∀ r', r' ≠ r → heap w' !! r' = heap w !! r').
Proof.
  intros Hdf. rewrite (remove_high_missing_columns_world _ _ T) by done.
  eexists _, _, _, _. split; [reflexivity|]. simpl.
  split; [by rewrite lookup_insert_eq|]. split; [done|].
  assert (Hsub : ∀ c, c ∈ labels_above T t → c ∈ columns T).
  { intros c ([k v] & -> & [_ Hin]%list_elem_of_filter)%list_elem_of_fmap.
    apply list_elem_of_fmap. by exists (k, v). }
  assert (Hiff : ∀ c, c ∈ labels_above T t
                 ↔ (c ∈ columns T ∧ c ∉ columns (Pandas.drop_ignore T (labels_above T t)))).
  { intros c. rewrite columns_drop_ignore, list_elem_of_filter. split.
    - intros Hc. split; [by apply Hsub|]. intros [Hn _]. by apply Hn.
    - intros [Hc Hnot]. destruct (decide (c ∈ labels_above T t)); [done|].
      exfalso; apply Hnot; split; assumption. }
  split; [done|]. split.
  - intros Hnd. clear Hdf Hsub. revert Hiff.
    generalize (columns (Pandas.drop_ignore T (labels_above T t))). intros kept Hiff.
    assert (Hiff' : ∀ c, c ∈ (series T).*1 → (c ∈ labels_above T t ↔ c ∉ kept)).
    { intros c Hc. rewrite Hiff.
      split; [intros [_ ?]; assumption | intros ?; split; assumption]. }
    clear Hiff. unfold labels_above in *. unfold columns in *. revert Hnd Hiff'.
    induction (series T) as [|[k v] S IH]; intros Hnd Hiff; [done|].
    rewrite fmap_cons in Hnd. apply NoDup_cons in Hnd as [Hk Hnd].
    rewrite (filter_cons (λ c, F64.gt (missing_proportion_of c) t = true)).
    rewrite fmap_cons, (filter_cons (λ c, c ∉ kept)). cbn [fst].
    assert (Hrest : ∀ c, c ∈ S.*1 →
              c ∈ (filter (λ c, F64.gt (missing_proportion_of c) t = true) S).*1 ↔ c ∉ kept).
    { intros c Hc. rewrite <- (Hiff c) by (rewrite fmap_cons; by right).
      rewrite (filter_cons (λ c, F64.gt (missing_proportion_of c) t = true)).
      destruct (decide (F64.gt (missing_proportion_of (k, v)) t = true)); [|done].
      rewrite fmap_cons, elem_of_cons. cbn [fst]. split; [by right|].
      intros [->|Hin]; [done|done]. }
    specialize (Hiff k (ltac:(rewrite fmap_cons; left))).
    rewrite (filter_cons (λ c, F64.gt (missing_proportion_of c) t = true)) in Hiff.
    destruct (decide (F64.gt (missing_proportion_of (k, v)) t = true)) as [Hgt|Hle].
    + rewrite fmap_cons. cbn [fst].
      rewrite decide_True by (apply Hiff; rewrite fmap_cons; left).
      f_equal. by apply IH.
    + rewrite decide_False; [by apply IH|].
      intros Hout. apply Hiff in Hout.
      apply list_elem_of_fmap in Hout as ([k' v'] & Heq & [_ Hin]%list_elem_of_filter).
      simpl in Heq. subst k'. apply Hk. apply list_elem_of_fmap. by exists (k, v').
  - split; [apply fresh_heap_None|]. intros r' Hr'. by rewrite lookup_insert_ne.
Qed.

Lemma remove_high_missing_columns_report_witness :
  ∃ r w' R dropped,
    run (remove_high_missing_columns 1%positive F64.lit_0_8) (world_of notes_table)
      = (Returned r, w')
    ∧ heap w' !! r = Some R
    ∧ stdout w' = stdout (world_of notes_table) ++ [ColumnsDropped dropped]
    ∧ (∀ c, c ∈ dropped ↔ (c ∈ columns notes_table ∧ c ∉ columns R))
    ∧ (NoDup (columns notes_table) →
       dropped = filter (λ c, c ∉ columns R) (columns notes_table))
    ∧ heap (world_of notes_table) !! r = None
    ∧ (∀ r', r' ≠ r → heap w' !! r' = heap (world_of notes_table) !! r').
Proof.
  apply (remove_high_missing_columns_report (world_of notes_table) 1%positive notes_table
           F64.lit_0_8).
  reflexivity.
Defined.

Lemma elem_of_labels_above T t k :
  k ∈ labels_above T t
  ↔ ∃ vals, (k, vals) ∈ series T ∧ F64.gt (missing_proportion_of (k, vals)) t = true.
Proof. apply elem_of_columns_to_drop. Qed.

(** Among the columns that stay after a first pass, a second pass selects
    the labels it would have selected in the whole table. *)
Lemma labels_above_after_drop T D t k :
  k ∉ D → (k ∈ labels_above (Pandas.drop_ignore T D) t ↔ k ∈ labels_above T t).
Proof.
  intros Hk. rewrite !elem_of_labels_above. unfold Pandas.drop_ignore. simpl.
  split; intros (vals & Hin & Hgt); exists vals; (split; [|done]).
  - by apply list_elem_of_filter in Hin as [_ Hin].
  - by apply list_elem_of_filter.
Qed.

(** Two passes, one after the other, keep the columns that neither selects. *)
Lemma drop_ignore_two_passes T t1 t2 :
  Pandas.drop_ignore
    (Pandas.drop_ignore T (labels_above T t1))
    (labels_above (Pandas.drop_ignore T (labels_above T t1)) t2)
  = mkDataFrame (n_rows T)
      (filter (λ c, (c.1 ∉ labels_above T t1) ∧ (c.1 ∉ labels_above T t2)) (series T)).
Proof.
  unfold Pandas.drop_ignore at 1 2. simpl. f_equal.
  rewrite list_filter_filter. apply list_filter_iff. intros [k v]. simpl.
  split.
  - intros [H2 H1]. split; [done|]. intros Hin. apply H2.
    by apply labels_above_after_drop.
  - intros [H1 H2]. split; [|done]. intros Hin. apply H2.
    by apply labels_above_after_drop in Hin.
Qed.

Lemma remove_high_missing_columns_twice w df T t1 t2 :
  heap w !! df = Some T →
  ∃ r1 w1 r2 w2,
    run (remove_high_missing_columns df t1) w = (Returned r1, w1)
    ∧ heap w1 !! r1 = Some (Pandas.drop_ignore T (labels_above T t1))
    ∧ run (remove_high_missing_columns r1 t2) w1 = (Returned r2, w2)
    ∧ heap w2 !! r2
      = Some (mkDataFrame (n_rows T)
                (filter (λ c, (c.1 ∉ labels_above T t1) ∧ (c.1 ∉ labels_above T t2))
                        (series T))).
Proof.
  intros Hdf.
  rewrite (remove_high_missing_columns_world _ _ T) by done.
  eexists _, _. eexists _, _. split; [reflexivity|]. simpl.
  assert (Hr1 : ∀ h : gmap loc DataFrame, ∀ d, <[fresh (dom h) := d]> h !! fresh (dom h) = Some d)
    by (intros; apply lookup_insert_eq).
  split; [apply Hr1|].
  rewrite (remove_high_missing_columns_world _ _ (Pandas.drop_ignore T (labels_above T t1)))
    by apply Hr1.
  split; [reflexivity|]. simpl. rewrite lookup_insert_eq. f_equal.
  apply drop_ignore_two_passes.
Qed.

(** X10: two thresholds can be applied in either order: the table returned
    by the second call is the same, and it holds the columns that neither
    threshold drops from the original table. *)
Theorem remove_high_missing_columns_commute w df T t1 t2 :
  heap w !! df = Some T →
  ∃ r1 w1 r2 w2 r1' w1' r2' w2' R,
    run (remove_high_missing_columns df t1) w = (Returned r1, w1)
    ∧ run (remove_high_missing_columns r1 t2) w1 = (Returned r2, w2)
    ∧ heap w2 !! r2 = Some R
    ∧ run (remove_high_missing_columns df t2) w = (Returned r1', w1')
    ∧ run (remove_high_missing_columns r1' t1) w1' = (Returned r2', w2')
    ∧ heap w2' !! r2' = Some R
    ∧ (∀ c, c ∈ series R
            ↔ (c ∈ series T ∧ (c.1 ∉ labels_above T t1) ∧ (c.1 ∉ labels_above T t2))).
Proof.
  intros Hdf.
  destruct (remove_high_missing_columns_twice w df T t1 t2 Hdf)
    as (r1 & w1 & r2 & w2 & Hrun1 & _ & Hrun2 & Hr2).
  destruct (remove_high_missing_columns_twice w df T t2 t1 Hdf)
    as (r1' & w1' & r2' & w2' & Hrun1' & _ & Hrun2' & Hr2').
  exists r1, w1, r2, w2, r1', w1', r2', w2'. eexists.
  split; [done|]. split; [done|]. split; [done|]. split; [done|]. split; [done|].
  split.
  - rewrite Hr2'. do 2 f_equal. apply list_filter_iff. intros c. tauto.
  - intros c. simpl. rewrite list_elem_of_filter. tauto.
Qed.

Lemma remove_high_missing_columns_commute_witness :
  ∃ r1 w1 r2 w2 r1' w1' r2' w2' R,
    run (remove_high_missing_columns 1%positive F64.lit_0_9) (world_of notes_table)
      = (Returned r1, w1)
    ∧ run (remove_high_missing_columns r1 F64.lit_0_8) w1 = (Returned r2, w2)
    ∧ heap w2 !! r2 = Some R
    ∧ run (remove_high_missing_columns 1%positive F64.lit_0_8) (world_of notes_table)
      = (Returned r1', w1')
    ∧ run (remove_high_missing_columns r1' F64.lit_0_9) w1' = (Returned r2', w2')
    ∧ heap w2' !! r2' = Some R
    ∧ (∀ c, c ∈ series R
            ↔ (c ∈ series notes_table ∧ (c.1 ∉ labels_above notes_table F64.lit_0_9)
               ∧ (c.1 ∉ labels_above notes_table F64.lit_0_8))).
Proof.
  apply (remove_high_missing_columns_commute (world_of notes_table) 1%positive
           notes_table F64.lit_0_9 F64.lit_0_8).
  reflexivity.
Defined.

(** The order of binary64: what is above a threshold is above every
    threshold that is not larger. *)
Lemma gt_le_trans p t1 t2 :
  F64_le t1 t2 = true → F64.gt p t2 = true → F64.gt p t1 = true.
Proof.
  unfold F64_le, F64.gt, SFleb, SFltb.
  destruct t1 as [s1|s1| |s1 m1 e1], t2 as [s2|s2| |s2 m2 e2], p as [s3|s3| |s3 m3 e3];
    simpl; try discriminate; try reflexivity;
    repeat match goal with s : bool |- _ => destruct s end;
    simpl; try discriminate; try reflexivity.
  all: change (Pos.compare_cont Eq ?a ?b) with (Pos.compare a b).
  all: destruct (Z.compare_spec e1 e2); destruct (Z.compare_spec e2 e3);
       destruct (Z.compare_spec e1 e3); try lia; try discriminate; try reflexivity;
       subst.
  all: destruct (Pos.compare_spec m1 m2); destruct (Pos.compare_spec m2 m3);
       destruct (Pos.compare_spec m1 m3); simpl; try lia; try discriminate; try reflexivity.
Qed.

Lemma labels_above_le T t1 t2 k :
  F64_le t1 t2 = true → k ∈ labels_above T t2 → k ∈ labels_above T t1.
Proof.
  intros Hle. rewrite !elem_of_labels_above. intros (vals & Hin & Hgt).
  exists vals. split; [done|]. by apply (gt_le_trans _ t1 t2).
Qed.

(** X11: raising the threshold never drops more.  For [t1 <= t2], the
    columns returned at [t1] are among the columns returned at [t2], in the
    same order, and applying [t2] to the table returned at [t1] changes
    nothing. *)
Theorem remove_high_missing_columns_monotone w df T t1 t2 :
  heap w !! df = Some T →
  F64_le t1 t2 = true →
  ∃ r1 w1 R1 r2 w2 R2 r3 w3,
    run (remove_high_missing_columns df t1) w = (Returned r1, w1)
    ∧ heap w1 !! r1 = Some R1
    ∧ run (remove_high_missing_columns df t2) w = (Returned r2, w2)
    ∧ heap w2 !! r2 = Some R2
    ∧ sublist (series R1) (series R2)
    ∧ run (remove_high_missing_columns r1 t2) w1 = (Returned r3, w3)
    ∧ heap w3 !! r3 = Some R1
    ∧ stdout w3 = stdout w1 ++ [ColumnsDropped []].
Proof.
  intros Hdf Hle.
  destruct (remove_high_missing_columns_twice w df T t1 t2 Hdf)
    as (r1 & w1 & r3 & w3 & Hrun1 & Hr1 & Hrun3 & Hr3).
  pose proof (remove_high_missing_columns_world w df T t2 Hdf) as Hrun2.
  pose proof (remove_high_missing_columns_world w1 r1 _ t2 Hr1) as Hrun3'.
  assert (Hboth : filter (λ c, (c.1 ∉ labels_above T t1) ∧ (c.1 ∉ labels_above T t2)) (series T)
                  = filter (λ c, c.1 ∉ labels_above T t1) (series T)).
  { apply list_filter_iff. intros c. split; [by intros [? _]|].
    intros H1. split; [done|]. intros H2. apply H1. by apply (labels_above_le T t1 t2). }
  assert (Hnil : labels_above (Pandas.drop_ignore T (labels_above T t1)) t2 = []).
  { destruct (labels_above (Pandas.drop_ignore T (labels_above T t1)) t2)
      as [|k l] eqn:E; [reflexivity|]. exfalso.
    assert (Hk : k ∈ labels_above (Pandas.drop_ignore T (labels_above T t1)) t2)
      by (rewrite E; left).
    apply elem_of_labels_above in Hk as (vals & Hin & Hgt).
    unfold Pandas.drop_ignore in Hin. simpl in Hin.
    apply list_elem_of_filter in Hin as [Hout Hin]. apply Hout. simpl.
    apply elem_of_labels_above. exists vals. split; [done|].
    by apply (gt_le_trans _ t1 t2). }
  eexists r1, w1, _, _, _, _, r3, w3.
  split; [done|]. split; [done|]. split; [exact Hrun2|]. simpl.
  split; [by rewrite lookup_insert_eq|].
  split.
  { simpl. rewrite <- Hboth.
    rewrite <- (list_filter_filter (λ c, c.1 ∉ labels_above T t1)
                                   (λ c, c.1 ∉ labels_above T t2)).
    apply sublist_filter. }
  split; [done|].
  split; [by rewrite Hr3, Hboth|].
  rewrite Hrun3 in Hrun3'. injection Hrun3' as _ ->. simpl. by rewrite Hnil.
Qed.

Lemma remove_high_missing_columns_monotone_witness :
  ∃ r1 w1 R1 r2 w2 R2 r3 w3,
    run (remove_high_missing_columns 1%positive F64.lit_0_8) (world_of notes_table)
      = (Returned r1, w1)
    ∧ heap w1 !! r1 = Some R1
    ∧ run (remove_high_missing_columns 1%positive F64.lit_0_9) (world_of notes_table)
      = (Returned r2, w2)
    ∧ heap w2 !! r2 = Some R2
    ∧ sublist (series R1) (series R2)
    ∧ run (remove_high_missing_columns r1 F64.lit_0_9) w1 = (Returned r3, w3)
    ∧ heap w3 !! r3 = Some R1
    ∧ stdout w3 = stdout w1 ++ [ColumnsDropped []].
Proof.
  apply (remove_high_missing_columns_monotone (world_of notes_table) 1%positive
           notes_table F64.lit_0_8 F64.lit_0_9).
  - reflexivity.
  - vm_compute. reflexivity.
Defined.

(** X12: [remove_high_missing_columns] keeps tables well formed: from a table
    with one cell per row in every column and distinct labels, the returned
    table has one cell per row in every column, distinct labels, and no
    column the original does not have. *)
Theorem remove_high_missing_columns_well_formed w df T t :
  heap w !! df = Some T →
  wf_frame T →
  NoDup (columns T) →
  ∃ r w' R,
    run (remove_high_missing_columns df t) w = (Returned r, w')
    ∧ heap w' !! r = Some R
    ∧ wf_frame R ∧ NoDup (columns R) ∧ columns R ⊆ columns T.
Proof.
  intros Hdf Hwf Hnd. rewrite (remove_high_missing_columns_world _ _ T) by done.
  eexists _, _, _. split; [reflexivity|]. simpl.
  split; [by rewrite lookup_insert_eq|].
  split; [by apply wf_drop_ignore|].
  split; [by apply NoDup_columns_drop_ignore|].
  rewrite columns_drop_ignore. apply list_subseteq_filter.
Qed.

Lemma remove_high_missing_columns_well_formed_witness :
  ∃ r w' R,
    run (remove_high_missing_columns 1%positive F64.lit_0_8) (world_of notes_table)
      = (Returned r, w')
    ∧ heap w' !! r = Some R
    ∧ wf_frame R ∧ NoDup (columns R) ∧ columns R ⊆ columns notes_table.
Proof.
  apply (remove_high_missing_columns_well_formed (world_of notes_table) 1%positive
           notes_table F64.lit_0_8).
  - reflexivity.
  - unfold wf_frame. apply (bool_decide_unpack _). vm_compute. exact I.
  - apply (bool_decide_unpack _). vm_compute. exact I.
Defined.

(** ** The buckets of a count *)

Lemma py_eq_refl v : is_missing v = false → py_eq v v = true.
Proof.
  destruct v as [[|]|s|z|]; simpl; try done; intros _; by apply bool_decide_eq_true_2.
Qed.

Lemma py_eq_sym a b : py_eq a b = py_eq b a.
Proof.
  destruct a as [[|]|s|z|], b as [[|]|s'|z'|]; simpl; try done;
    apply bool_decide_ext; split; congruence.
Qed.

Lemma py_eq_trans a b c : py_eq a b = true → py_eq b c = true → py_eq a c = true.
Proof.
  destruct a as [[|]|s|z|], b as [[|]|s'|z'|], c as [[|]|s''|z''|]; simpl; try done;
    rewrite ?bool_decide_eq_true; congruence.
Qed.

(** Two equal values match the same values. *)
Lemma py_eq_congr k v v' : py_eq k v = true → py_eq k v' = py_eq v v'.
Proof.
  intros Hkv. destruct (py_eq v v') eqn:E.
  - by apply (py_eq_trans k v v').
  - destruct (py_eq k v') eqn:E'; [|done]. rewrite <- E. symmetry.
    apply (py_eq_trans v k v'); [by rewrite py_eq_sym|done].
Qed.

Lemma py_eq_missing_r k v : is_missing v = true → py_eq k v = false.
Proof. destruct v; try done. by destruct k as [[|]| | |]. Qed.

Lemma occurrences_app k l1 l2 : occurrences k (l1 ++ l2) = occurrences k l1 + occurrences k l2.
Proof. unfold occurrences. by rewrite filter_app, length_app. Qed.

Lemma occurrences_present k s :
  occurrences k (filter (λ v, is_missing v = false) s) = occurrences k s.
Proof.
  unfold occurrences. induction s as [|v s IH]; [done|].
  rewrite (filter_cons (λ v, is_missing v = false)), (filter_cons (λ v, py_eq k v = true)).
  destruct (decide (is_missing v = false)) as [Hv|Hv].
  - rewrite (filter_cons (λ v, py_eq k v = true)).
    destruct (decide (py_eq k v = true)); simpl; by rewrite IH.
  - rewrite decide_False; [done|].
    rewrite py_eq_missing_r; [done|by destruct (is_missing v)].
Qed.

(** The keys after one more occurrence: a new key only when none matches. *)
Lemma bump_keys v buckets :
  (Pandas.bump v buckets).*1
  = if decide (matching v buckets = []) then buckets.*1 ++ [v] else buckets.*1.
Proof.
  unfold matching. induction buckets as [|[k n] buckets IH]; [done|].
  simpl. rewrite (filter_cons (λ b, py_eq b.1 v = true)). cbn [fst].
  destruct (py_eq k v) eqn:E.
  - destruct (decide (true = true)); [|done]. by rewrite decide_False.
  - destruct (decide (false = true)); [done|]. rewrite fmap_cons, IH. cbn [fst].
    by destruct (decide (filter _ buckets = [])).
Qed.

Lemma matching_length_keys v buckets :
  length (matching v buckets) = length (filter (λ k, py_eq k v = true) buckets.*1).
Proof.
  unfold matching. induction buckets as [|[k n] buckets IH]; [done|].
  rewrite fmap_cons, (filter_cons (λ b, py_eq b.1 v = true)),
    (filter_cons (λ k, py_eq k v = true)). cbn [fst].
  destruct (decide (py_eq k v = true)); simpl; by rewrite IH.
Qed.

Lemma bump_matching_total v v' buckets :
  matching_total v' (Pandas.bump v buckets)
  = matching_total v' buckets + (if py_eq v v' then 1 else 0).
Proof.
  unfold matching_total, matching. induction buckets as [|[k n] buckets IH].
  - simpl. rewrite (filter_cons (λ b, py_eq b.1 v' = true)). cbn [fst].
    destruct (py_eq v v'); [by rewrite decide_True|by rewrite decide_False].
  - simpl. destruct (py_eq k v) eqn:E.
    + rewrite !(filter_cons (λ b, py_eq b.1 v' = true)). cbn [fst].
      rewrite <- (py_eq_congr k v v' E).
      destruct (py_eq k v') eqn:E'.
      * rewrite !decide_True by done. simpl. lia.
      * rewrite !decide_False by done. lia.
    + rewrite !(filter_cons (λ b, py_eq b.1 v' = true)). cbn [fst].
      destruct (decide (py_eq k v' = true)); simpl; rewrite IH; lia.
Qed.

Lemma bump_counted v buckets seen :
  is_missing v = false → counted buckets seen → counted (Pandas.bump v buckets) (seen ++ [v]).
Proof.
  intros Hv (Hpos & Hone & Htotal). split; [|split].
  - clear Hone Htotal. induction buckets as [|[k n] buckets IH].
    + by repeat constructor.
    + simpl. apply Forall_cons in Hpos as [[Hk Hn] Hpos]. simpl in *.
      destruct (py_eq k v).
      * constructor; [simpl; split; [done|lia]|done].
      * constructor; [by split|by apply IH].
  - intros v' Hv'. rewrite matching_length_keys, bump_keys.
    destruct (decide (matching v buckets = [])) as [Hnone|Hsome];
      [|rewrite <- matching_length_keys; by apply Hone].
    rewrite filter_app, length_app, <- matching_length_keys.
    rewrite (filter_cons (λ k, py_eq k v' = true)).
    destruct (decide (py_eq v v' = true)) as [Hvv'|Hvv']; [|simpl; specialize (Hone v' Hv'); lia].
    simpl. assert (Hnone' : matching v' buckets = []); [|rewrite Hnone'; simpl; lia].
    unfold matching in *. apply filter_none. intros [k n] Hin Hk. simpl in Hk.
    assert (Hkv : (k, n) ∈ filter (λ b, py_eq b.1 v = true) buckets).
    { apply list_elem_of_filter. split; [|done]. simpl.
      apply (py_eq_trans k v' v); [done|by rewrite py_eq_sym]. }
    rewrite Hnone in Hkv. by apply elem_of_nil in Hkv.
  - intros v' Hv'. rewrite bump_matching_total, occurrences_app, Htotal by done.
    f_equal. unfold occurrences. rewrite (filter_cons (λ x, py_eq v' x = true)).
    rewrite (py_eq_sym v' v).
    destruct (py_eq v v'); [by rewrite decide_True|by rewrite decide_False].
Qed.

Lemma foldl_bump_counted vals buckets seen :
  Forall (λ v, is_missing v = false) vals →
  counted buckets seen →
  counted (foldl (λ counts v, Pandas.bump v counts) buckets vals) (seen ++ vals).
Proof.
  revert buckets seen. induction vals as [|v vals IH]; intros buckets seen Hvals Hc.
  - by rewrite app_nil_r.
  - apply Forall_cons in Hvals as [Hv Hvals]. simpl.
    replace (seen ++ v :: vals) with ((seen ++ [v]) ++ vals) by by rewrite <- app_assoc.
    apply IH; [done|]. by apply bump_counted.
Qed.

Lemma counted_Permutation buckets buckets' seen :
  buckets ≡ₚ buckets' → counted buckets seen → counted buckets' seen.
Proof.
  intros Hp (Hpos & Hone & Htotal). split; [|split].
  - by rewrite <- Hp.
  - intros v Hv. unfold matching. rewrite <- Hp. by apply Hone.
  - intros v Hv. unfold matching_total, matching. rewrite <- Hp. by apply Htotal.
Qed.

(** [value_counts] counts the cells of the column. *)
Lemma value_counts_counted s : counted (Pandas.value_counts s) s.
Proof.
  unfold Pandas.value_counts.
  apply (counted_Permutation
           (foldl (λ counts v, Pandas.bump v counts) []
                  (filter (λ v, is_missing v = false) s))).
  { symmetry. apply merge_sort_Permutation. }
  assert (Hc : counted (foldl (λ counts v, Pandas.bump v counts) []
                              (filter (λ v, is_missing v = false) s))
                       ([] ++ filter (λ v, is_missing v = false) s)).
  { apply foldl_bump_counted.
    - apply Forall_forall. by intros v [Hv _]%list_elem_of_filter.
    - split; [constructor|]. split; [intros; simpl; lia|done]. }
  destruct Hc as (Hpos & Hone & Htotal). split; [done|]. split; [done|].
  intros v Hv. rewrite Htotal by done. simpl. apply occurrences_present.
Qed.

(** In counted buckets, a bucket holds the number of occurrences of its key. *)
Lemma counted_bucket buckets seen k n :
  counted buckets seen → (k, n) ∈ buckets →
  is_missing k = false ∧ 0 < n ∧ n = occurrences k seen.
Proof.
  intros (Hpos & Hone & Htotal) Hin.
  rewrite Forall_forall in Hpos. destruct (Hpos _ Hin) as [Hk Hn]. simpl in *.
  split; [done|]. split; [done|].
  rewrite <- Htotal by done. unfold matching_total.
  assert (Hm : (k, n) ∈ matching k buckets).
  { apply list_elem_of_filter. split; [by apply py_eq_refl|done]. }
  specialize (Hone k Hk).
  destruct (matching k buckets) as [|b [|b' l]]; simpl in *; [by apply elem_of_nil in Hm| |lia].
  apply list_elem_of_singleton in Hm as <-. simpl. lia.
Qed.

(** In counted buckets, a value has a bucket exactly when it occurs. *)
Lemma counted_one_bucket buckets seen v :
  counted buckets seen → is_missing v = false →
  length (matching v buckets) = if decide (0 < occurrences v seen) then 1 else 0.
Proof.
  intros (Hpos & Hone & Htotal) Hv. specialize (Hone v Hv). specialize (Htotal v Hv).
  unfold matching_total in Htotal.
  assert (Hpos' : Forall (λ b, is_missing b.1 = false ∧ 0 < b.2) (matching v buckets)).
  { rewrite Forall_forall in *. intros b [_ Hb]%list_elem_of_filter. by apply Hpos. }
  destruct (matching v buckets) as [|b [|b' l]]; simpl in *; [|..|lia].
  - rewrite <- Htotal. by rewrite decide_False by lia.
  - apply Forall_cons in Hpos' as [[_ Hb] _]. rewrite decide_True by lia. done.
Qed.

Lemma more_frequent_total : Total Pandas.more_frequent.
Proof. intros a b. unfold Pandas.more_frequent. lia. Qed.

Lemma more_frequent_trans : Transitive Pandas.more_frequent.
Proof. intros a b c. unfold Pandas.more_frequent. lia. Qed.

Lemma value_counts_sorted s : StronglySorted Pandas.more_frequent (Pandas.value_counts s).
Proof.
  unfold Pandas.value_counts.
  apply (@StronglySorted_merge_sort _ Pandas.more_frequent _
           more_frequent_trans more_frequent_total).
Qed.

Lemma StronglySorted_lookup_le {A} (R : relation A) (l : list A) i j a b :
  StronglySorted R l → i < j → l !! i = Some a → l !! j = Some b → R a b.
Proof.
  intros Hs. revert i j. induction Hs as [|x l Hs IH Hx]; intros i j Hij Hi Hj; [done|].
  destruct j as [|j]; [lia|]. simpl in Hj. destruct i as [|i].
  - simpl in Hi. injection Hi as ->. rewrite Forall_forall in Hx.
    apply Hx. by apply list_elem_of_lookup_2 in Hj.
  - simpl in Hi. apply (IH i j); [lia|done|done].
Qed.

Lemma filter_two_indices {A} (P : A → Prop) `{!∀ x, Decision (P x)} (l : list A) i j a b :
  i < j → l !! i = Some a → l !! j = Some b → P a → P b → 2 ≤ length (filter P l).
Proof.
  revert i j. induction l as [|x l IH]; intros i j Hij Hi Hj Ha Hb; [done|].
  destruct j as [|j]; [lia|]. simpl in Hj. destruct i as [|i].
  - simpl in Hi. injection Hi as ->. rewrite filter_cons_True by done. simpl.
    assert (Hin : b ∈ filter P l).
    { apply list_elem_of_filter. split; [done|]. by apply list_elem_of_lookup_2 in Hj. }
    destruct (filter P l); [by apply elem_of_nil in Hin|simpl; lia].
  - simpl in Hi. specialize (IH i j ltac:(lia) Hi Hj Ha Hb).
    rewrite filter_cons. destruct (decide (P x)); simpl; lia.
Qed.

(** The keys of a count are values of the column. *)
Lemma bump_keys_elem_of v buckets k :
  k ∈ (Pandas.bump v buckets).*1 → k = v ∨ k ∈ buckets.*1.
Proof.
  rewrite bump_keys. destruct (decide (matching v buckets = [])); [|by right].
  intros [Hk|Hk%list_elem_of_singleton]%elem_of_app; [by right|by left].
Qed.

Lemma foldl_bump_keys_elem_of vals buckets k :
  k ∈ (foldl (λ counts v, Pandas.bump v counts) buckets vals).*1 →
  k ∈ buckets.*1 ∨ k ∈ vals.
Proof.
  revert buckets. induction vals as [|v vals IH]; intros buckets Hk; [by left|].
  simpl in Hk. apply IH in Hk as [Hk|Hk]; [|right; by right].
  apply bump_keys_elem_of in Hk as [->|Hk]; [right; left|by left].
Qed.

Lemma value_counts_keys_elem_of s k :
  k ∈ (Pandas.value_counts s).*1 → k ∈ s ∧ is_missing k = false.
Proof.
  unfold Pandas.value_counts. rewrite merge_sort_Permutation.
  intros [Hk|Hk]%foldl_bump_keys_elem_of; [by apply elem_of_nil in Hk|].
  apply list_elem_of_filter in Hk. tauto.
Qed.

(** X13: the summary that every count of the dashboard is built from.  Its
    key column holds values of the table's column that are not missing, no
    two of them equal; a value that occurs has its bucket; the count beside
    a key is the number of rows with that value, and is not zero; the counts
    fall from the first row of the summary to the last. *)
Theorem count_table_buckets d column key count vals w :
  Pandas.getitem d column = Returned vals →
  ∃ summary keys counts,
    run (count_table d column key count) w = (Returned summary, w)
    ∧ summary = mkDataFrame (length keys) [(key, keys); (count, counts)]
    ∧ length counts = length keys
    ∧ (∀ i k, keys !! i = Some k →
         k ∈ vals ∧ is_missing k = false ∧ 0 < occurrences k vals
         ∧ counts !! i = Some (VNum (Z.of_nat (occurrences k vals))))
    ∧ (∀ v, v ∈ vals → is_missing v = false →
         ∃ i k, keys !! i = Some k ∧ py_eq k v = true)
    ∧ (∀ i j ki kj, keys !! i = Some ki → keys !! j = Some kj →
         py_eq ki kj = true → i = j)
    ∧ (∀ i j ni nj, i ≤ j → counts !! i = Some (VNum ni) → counts !! j = Some (VNum nj) →
         (nj ≤ ni)%Z).
Proof.
  intros Hcol. rewrite (count_table_run d column key count vals w Hcol).
  set (B := Pandas.value_counts vals).
  pose proof (value_counts_counted vals) as Hc. fold B in Hc.
  pose proof (value_counts_sorted vals) as Hs. fold B in Hs.
  exists (mkDataFrame (length B) [(key, B.*1); (count, (λ n, VNum (Z.of_nat n)) <$> B.*2)]),
         (B.*1), ((λ n, VNum (Z.of_nat n)) <$> B.*2).
  split; [done|]. split; [by rewrite length_fmap|]. split; [by rewrite !length_fmap|].
  assert (Hlookup : ∀ i k, B.*1 !! i = Some k → ∃ n, B !! i = Some (k, n)).
  { intros i k Hi. rewrite list_lookup_fmap in Hi.
    destruct (B !! i) as [[k' n]|]; [|done]. injection Hi as ->. by exists n. }
  split; [|split; [|split]].
  - intros i k Hi. destruct (Hlookup i k Hi) as [n Hn].
    destruct (counted_bucket B vals k n Hc) as (Hk & Hpos & Hocc);
      [by apply list_elem_of_lookup_2 in Hn|].
    split; [|split; [done|split; [lia|]]].
    + apply (value_counts_keys_elem_of vals k). by apply list_elem_of_lookup_2 in Hi.
    + rewrite !list_lookup_fmap, Hn. simpl. by rewrite Hocc.
  - intros v Hv Hpresent.
    pose proof (counted_one_bucket B vals v Hc Hpresent) as Hone.
    assert (Hocc : 0 < occurrences v vals).
    { unfold occurrences.
      assert (Hin : v ∈ filter (λ x, py_eq v x = true) vals)
        by (apply list_elem_of_filter; split; [by apply py_eq_refl|done]).
      destruct (filter _ vals); [by apply elem_of_nil in Hin|simpl; lia]. }
    rewrite decide_True in Hone by done.
    destruct (matching v B) as [|[k n] l] eqn:E; [done|].
    assert (Hin : (k, n) ∈ matching v B) by (rewrite E; left).
    apply list_elem_of_filter in Hin as [Hk Hin]. simpl in Hk.
    apply list_elem_of_lookup_1 in Hin as [i Hi].
    exists i, k. split; [|done]. by rewrite list_lookup_fmap, Hi.
  - intros i j ki kj Hi Hj Heq.
    destruct (Hlookup i ki Hi) as [ni Hni]. destruct (Hlookup j kj Hj) as [nj Hnj].
    destruct (counted_bucket B vals kj nj Hc) as (Hkj & _ & _);
      [by apply list_elem_of_lookup_2 in Hnj|].
    destruct Hc as (_ & Hone & _). specialize (Hone kj Hkj). unfold matching in Hone.
    destruct (decide (i = j)) as [|Hne]; [done|]. exfalso.
    assert (Hself : py_eq kj kj = true) by by apply py_eq_refl.
    destruct (decide (i < j)).
    + pose proof (filter_two_indices (λ b, py_eq b.1 kj = true) B i j _ _
                    ltac:(lia) Hni Hnj Heq Hself). lia.
    + pose proof (filter_two_indices (λ b, py_eq b.1 kj = true) B j i _ _
                    ltac:(lia) Hnj Hni Hself Heq). lia.
  - intros i j ci cj Hij Hi Hj.
    rewrite !list_lookup_fmap in Hi, Hj.
    destruct (B !! i) as [[ki ni]|] eqn:Ei; [|done].
    destruct (B !! j) as [[kj nj]|] eqn:Ej; [|done].
    simpl in Hi, Hj. injection Hi as <-. injection Hj as <-.
    destruct (decide (i = j)) as [->|Hne]; [rewrite Ei in Ej; injection Ej as _ ->; lia|].
    pose proof (StronglySorted_lookup_le _ B i j _ _ Hs ltac:(lia) Ei Ej) as Hle.
    unfold Pandas.more_frequent in Hle. simpl in Hle. lia.
Qed.

Lemma count_table_buckets_witness :
  ∃ summary keys counts,
    run (count_table survey_table "What_is_your_favorite_coffee_drink"
           "Coffee_Drink" "Count") (world_of survey_table)
      = (Returned summary, world_of survey_table)
    ∧ summary = mkDataFrame (length keys) [("Coffee_Drink", keys); ("Count", counts)]
    ∧ length counts = length keys
    ∧ (∀ i k, keys !! i = Some k →
         k ∈ [VStr "Latte"; VStr "Pourover"; VStr "Latte"; VMissing; VStr "Cortado"]
         ∧ is_missing k = false
         ∧ 0 < occurrences k
                 [VStr "Latte"; VStr "Pourover"; VStr "Latte"; VMissing; VStr "Cortado"]
         ∧ counts !! i
           = Some (VNum (Z.of_nat (occurrences k
                 [VStr "Latte"; VStr "Pourover"; VStr "Latte"; VMissing; VStr "Cortado"]))))
    ∧ (∀ v, v ∈ [VStr "Latte"; VStr "Pourover"; VStr "Latte"; VMissing; VStr "Cortado"] →
         is_missing v = false →
         ∃ i k, keys !! i = Some k ∧ py_eq k v = true)
    ∧ (∀ i j ki kj, keys !! i = Some ki → keys !! j = Some kj →
         py_eq ki kj = true → i = j)
    ∧ (∀ i j ni nj, i ≤ j → counts !! i = Some (VNum ni) → counts !! j = Some (VNum nj) →
         (nj ≤ ni)%Z).
Proof.
  apply (count_table_buckets survey_table "What_is_your_favorite_coffee_drink"
           "Coffee_Drink" "Count" _ (world_of survey_table)).
  reflexivity.
Defined.

(** ** The callbacks with a selection *)


Lemma select_cons b v mask vals :
  Pandas.select (b :: mask) (v :: vals)
  = if b then v :: Pandas.select mask vals else Pandas.select mask vals.
Proof.
  unfold Pandas.select. simpl. rewrite (filter_cons (λ p : bool * value, p.1 = true)).
  by destruct b.
Qed.

Lemma select_elem_of mask vals k :
  k ∈ Pandas.select mask vals → ∃ i, mask !! i = Some true ∧ vals !! i = Some k.
Proof.
  revert vals. induction mask as [|b mask IH]; intros [|v vals] Hk;
    try (by apply elem_of_nil in Hk).
  rewrite select_cons in Hk. destruct b.
  - apply elem_of_cons in Hk as [->|Hk]; [by exists 0|].
    destruct (IH vals Hk) as (i & Hm & Hv). by exists (S i).
  - destruct (IH vals Hk) as (i & Hm & Hv). by exists (S i).
Qed.

Lemma count_present_select (f : value → bool) filter_col group_col :
  count_present (Pandas.select (f <$> filter_col) group_col)
  = length (filter (λ p : value * value, f p.1 = true ∧ is_missing p.2 = false)
                   (zip filter_col group_col)).
Proof.
  unfold count_present. revert group_col.
  induction filter_col as [|c filter_col IH]; intros [|g group_col]; try done.
  rewrite fmap_cons, select_cons. simpl.
  rewrite (filter_cons (λ p : value * value, f p.1 = true ∧ is_missing p.2 = false)).
  cbn [fst snd]. destruct (f c) eqn:Ef.
  - rewrite (filter_cons (λ v, is_missing v = false)).
    destruct (decide (is_missing g = false)) as [Hg|Hg].
    + rewrite decide_True by done. simpl. by rewrite IH.
    + rewrite decide_False by (by intros [_ ?]). apply IH.
  - rewrite decide_False by (by intros [? _]). apply IH.
Qed.

Lemma zip_diag_filter (P : value → value → Prop) `{!∀ a b, Decision (P a b)} (s : list value) :
  length (filter (λ p : value * value, P p.1 p.2) (zip s s))
  = length (filter (λ v, P v v) s).
Proof.
  induction s as [|v s IH]; [done|]. simpl.
  rewrite (filter_cons (λ p : value * value, P p.1 p.2)), (filter_cons (λ v, P v v)).
  cbn [fst snd]. destruct (decide (P v v)); simpl; by rewrite IH.
Qed.

(** X14: with a number of cups selected, the counts that
    [update_age_consumption] charts add up to the number of rows that have
    that number of cups and an age that is not missing, and every age group
    charted is the age of such a row.  The world is left as it was. *)
Theorem update_age_consumption_total w df T selected_cups cups ages :
  heap w !! df = Some T →
  Pandas.getitem T "How_many_cups_of_coffee_do_you_typically_drink_per_day"
    = Returned cups →
  Pandas.getitem T "What_is_your_age" = Returned ages →
  ∃ fig keys counts,
    run (update_age_consumption df selected_cups) w = (Returned fig, w)
    ∧ fig = Figure (mkDataFrame (length keys) [("Age_Group", keys); ("Count", counts)])
                   "Age_Group" "Count"
    ∧ sum_counts counts = Z.of_nat (matching_present selected_cups cups ages)
    ∧ (∀ k, k ∈ keys →
         ∃ i c, cups !! i = Some c ∧ py_eq c selected_cups = true ∧ ages !! i = Some k).
Proof.
  intros Hdf Hcups Hages.
  set (mask := (λ v, py_eq v selected_cups) <$> cups).
  pose proof (getitem_getitem_mask T mask _ _ Hages) as Hfiltered.
  pose proof (count_table_run _ "What_is_your_age" "Age_Group" "Count" _ w Hfiltered)
    as Hrun.
  eexists _, ((Pandas.value_counts (Pandas.select mask ages)).*1),
    ((λ n, VNum (Z.of_nat n)) <$> (Pandas.value_counts (Pandas.select mask ages)).*2).
  split; [|split; [reflexivity|split]].
  - unfold run, update_age_consumption, mbind, M_bind, deref, lift in *.
    rewrite Hdf, Hcups. fold mask. rewrite Hrun. unfold mret, M_ret, px_bar.
    by rewrite length_fmap.
  - rewrite sum_counts_numbers, value_counts_total. f_equal.
    apply (count_present_select (λ v, py_eq v selected_cups)).
  - intros k [Hk _]%value_counts_keys_elem_of.
    apply select_elem_of in Hk as (i & Hm & Hv). unfold mask in Hm.
    rewrite list_lookup_fmap in Hm. destruct (cups !! i) as [c|] eqn:Ec; [|done].
    simpl in Hm. injection Hm as Hm. by exists i, c.
Qed.

Lemma update_age_consumption_total_witness :
  ∃ fig keys counts,
    run (update_age_consumption 1%positive (VNum 2)) (world_of survey_table)
      = (Returned fig, world_of survey_table)
    ∧ fig = Figure (mkDataFrame (length keys) [("Age_Group", keys); ("Count", counts)])
                   "Age_Group" "Count"
    ∧ sum_counts counts
      = Z.of_nat (matching_present (VNum 2)
                    [VNum 1; VNum 2; VNum 2; VMissing; VNum 4]
                    [VStr "25-34"; VStr "25-34"; VStr "35-44"; VStr "nan"; VStr "18-24"])
    ∧ (∀ k, k ∈ keys →
         ∃ i c, [VNum 1; VNum 2; VNum 2; VMissing; VNum 4] !! i = Some c
                ∧ py_eq c (VNum 2) = true
                ∧ [VStr "25-34"; VStr "25-34"; VStr "35-44"; VStr "nan"; VStr "18-24"] !! i
                  = Some k).
Proof.
  apply (update_age_consumption_total (world_of survey_table) 1%positive survey_table
           (VNum 2) _ _ eq_refl eq_refl eq_refl).
Defined.

(** On a table that has the column, the chart of line 296 is refused: the
    colour [#2E86C] has five digits. *)
Lemma update_political_chart_refused w df T selected vals :
  heap w !! df = Some T →
  Pandas.getitem T "Political_Affiliation" = Returned vals →
  run (update_political_chart df selected) w
  = (Raised (ValueError "Invalid value for the 'color' property of bar.marker"), w).
Proof.
  intros Hdf Hcol. unfold run, update_political_chart.
  rewrite (bind_returned _ _ w _ w (political_counts_run w df T selected vals Hdf Hcol)).
  unfold lift. by rewrite px_bar_counts.
Qed.

(** X15: with affiliations selected, the summary that lines 287-294 of
    [update_political_chart] bind to [political_counts] holds only selected
    affiliations that occur in the table, and its counts add up to the
    number of rows whose affiliation is selected and not missing.  The
    callback does not return it: the chart of line 296 raises. *)
Theorem update_political_chart_selected w df T selected vals :
  heap w !! df = Some T →
  Pandas.getitem T "Political_Affiliation" = Returned vals →
  selected ≠ [] →
  ∃ summary keys counts,
    run (political_counts df (Some selected)) w = (Returned summary, w)
    ∧ summary = mkDataFrame (length keys)
                  [("Political_Affiliation", keys); ("Count", counts)]
    ∧ sum_counts counts = Z.of_nat (selected_present selected vals)
    ∧ (∀ k, k ∈ keys → k ∈ vals ∧ Pandas.isin selected k = true)
    ∧ run (update_political_chart df (Some selected)) w
      = (Raised (ValueError "Invalid value for the 'color' property of bar.marker"), w).
Proof.
  intros Hdf Hcol Hsel.
  set (mask := Pandas.isin selected <$> vals).
  assert (Hcounted : affiliations_counted (Some selected) vals = Pandas.select mask vals).
  { unfold affiliations_counted. by destruct selected. }
  eexists _, ((Pandas.value_counts (Pandas.select mask vals)).*1),
    ((λ n, VNum (Z.of_nat n)) <$> (Pandas.value_counts (Pandas.select mask vals)).*2).
  split; [|split; [reflexivity|split; [|split]]].
  - rewrite (political_counts_run w df T (Some selected) vals Hdf Hcol), Hcounted.
    by rewrite length_fmap.
  - rewrite sum_counts_numbers, value_counts_total. f_equal.
    unfold mask, selected_present. rewrite (count_present_select (Pandas.isin selected)).
    exact (zip_diag_filter (λ a b, Pandas.isin selected a = true ∧ is_missing b = false)
                           vals).
  - intros k [Hk _]%value_counts_keys_elem_of.
    apply select_elem_of in Hk as (i & Hm & Hv). unfold mask in Hm.
    rewrite list_lookup_fmap, Hv in Hm. simpl in Hm. injection Hm as Hm.
    split; [by apply list_elem_of_lookup_2 in Hv|done].
  - by apply (update_political_chart_refused w df T _ vals).
Qed.

Lemma update_political_chart_selected_witness :
  ∃ summary keys counts,
    run (political_counts 1%positive (Some [VStr "Independent"; VStr "Green"]))
        (world_of survey_table) = (Returned summary, world_of survey_table)
    ∧ summary = mkDataFrame (length keys)
                  [("Political_Affiliation", keys); ("Count", counts)]
    ∧ sum_counts counts
      = Z.of_nat (selected_present [VStr "Independent"; VStr "Green"]
                    [VStr "Independent"; VMissing; VStr "Democrat"; VStr "Independent";
                     VStr "Republican"])
    ∧ (∀ k, k ∈ keys →
         k ∈ [VStr "Independent"; VMissing; VStr "Democrat"; VStr "Independent";
              VStr "Republican"]
         ∧ Pandas.isin [VStr "Independent"; VStr "Green"] k = true)
    ∧ run (update_political_chart 1%positive (Some [VStr "Independent"; VStr "Green"]))
          (world_of survey_table)
      = (Raised (ValueError "Invalid value for the 'color' property of bar.marker"),
         world_of survey_table).
Proof.
  apply (update_political_chart_selected (world_of survey_table) 1%positive survey_table
           [VStr "Independent"; VStr "Green"] _ eq_refl eq_refl).
  discriminate.
Defined.

(** ** The callbacks on a table without their columns *)

Lemma getitem_present T label :
  label ∈ columns T → ∃ vals, Pandas.getitem T label = Returned vals.
Proof.
  intros [vals Hin]%label_column. unfold Pandas.getitem.
  assert (Hf : (label, vals) ∈ filter (λ c, c.1 = label) (series T))
    by by apply list_elem_of_filter.
  destruct (filter _ (series T)) as [|c l]; [by apply elem_of_nil in Hf|]. by exists c.2.
Qed.

Lemma getitem_absent T label :
  label ∉ columns T → Pandas.getitem T label = Raised (KeyError [label]).
Proof. intros Hout. unfold Pandas.getitem. by rewrite filter_label_absent. Qed.

Lemma columns_getitem_mask T mask : columns (Pandas.getitem_mask T mask) = columns T.
Proof.
  unfold columns, Pandas.getitem_mask. simpl. rewrite <- list_fmap_compose.
  by apply list_fmap_ext.
Qed.

(** X16: [update_age_consumption] needs two columns.  On a table that lacks
    one of them it raises [KeyError] for the first it misses, the cups
    column before the age column, whatever is selected, and changes
    nothing. *)
Theorem update_age_consumption_missing_column w df T selected_cups :
  heap w !! df = Some T →
  "How_many_cups_of_coffee_do_you_typically_drink_per_day" ∉ columns T
  ∨ "What_is_your_age" ∉ columns T →
  run (update_age_consumption df selected_cups) w
  = (Raised (KeyError
       [if bool_decide ("How_many_cups_of_coffee_do_you_typically_drink_per_day"
                          ∈ columns T)
        then "What_is_your_age"
        else "How_many_cups_of_coffee_do_you_typically_drink_per_day"]), w).
Proof.
  intros Hdf Hmiss. unfold run, update_age_consumption.
  rewrite (bind_returned _ _ w T w) by by apply deref_returned.
  case_bool_decide as Hcups.
  - destruct Hmiss as [Hmiss|Hage]; [done|].
    destruct (getitem_present T _ Hcups) as [cups Hc].
    rewrite (bind_returned _ _ w cups w) by (unfold lift; by rewrite Hc).
    apply bind_raised. apply (count_table_missing _ "What_is_your_age").
    by rewrite columns_getitem_mask.
  - apply bind_raised. unfold lift. by rewrite getitem_absent.
Qed.

Lemma update_age_consumption_missing_column_witness :
  run (update_age_consumption 1%positive (VNum 2)) (world_of drinks_table)
  = (Raised (KeyError
       [if bool_decide ("How_many_cups_of_coffee_do_you_typically_drink_per_day"
                          ∈ columns drinks_table)
        then "What_is_your_age"
        else "How_many_cups_of_coffee_do_you_typically_drink_per_day"]),
     world_of drinks_table).
Proof.
  apply (update_age_consumption_missing_column (world_of drinks_table) 1%positive
           drinks_table (VNum 2)).
  - reflexivity.
  - left. apply (bool_decide_unpack _). vm_compute. exact I.
Defined.

(** X17: the counts that are grouped by one column raise [KeyError] for
    that column on a table that lacks it, and change nothing:
    [update_political_chart], with or without a selection, and the two
    summaries computed at start-up. *)
Theorem counts_missing_column w df T :
  heap w !! df = Some T →
  (∀ selected, "Political_Affiliation" ∉ columns T →
     run (update_political_chart df selected) w
     = (Raised (KeyError ["Political_Affiliation"]), w))
  ∧ ("What_is_your_favorite_coffee_drink" ∉ columns T →
     run (favorite_coffee_counts df) w
     = (Raised (KeyError ["What_is_your_favorite_coffee_drink"]), w))
  ∧ ("Employment_Status" ∉ columns T →
     run (employment_counts df) w = (Raised (KeyError ["Employment_Status"]), w)).
Proof.
  intros Hdf. split; [|split].
  - intros selected Hmiss. unfold run, update_political_chart.
    apply bind_raised. unfold political_counts.
    rewrite (bind_returned _ _ w T w) by by apply deref_returned.
    destruct (nothing_selected selected).
    + rewrite (bind_returned _ _ w T w) by done.
      by apply (count_table_missing T "Political_Affiliation").
    + apply bind_raised. apply bind_raised. unfold lift. by rewrite getitem_absent.
  - intros Hmiss. unfold run, favorite_coffee_counts.
    rewrite (bind_returned _ _ w T w) by by apply deref_returned.
    by apply (count_table_missing T "What_is_your_favorite_coffee_drink").
  - intros Hmiss. unfold run, employment_counts.
    rewrite (bind_returned _ _ w T w) by by apply deref_returned.
    by apply (count_table_missing T "Employment_Status").
Qed.

Lemma counts_missing_column_witness :
  run (update_political_chart 1%positive (Some [VStr "Independent"])) (world_of drinks_table)
  = (Raised (KeyError ["Political_Affiliation"]), world_of drinks_table)
  ∧ run (update_political_chart 1%positive None) (world_of drinks_table)
    = (Raised (KeyError ["Political_Affiliation"]), world_of drinks_table)
  ∧ run (favorite_coffee_counts 1%positive) (world_of drinks_table)
    = (Raised (KeyError ["What_is_your_favorite_coffee_drink"]), world_of drinks_table)
  ∧ run (employment_counts 1%positive) (world_of drinks_table)
    = (Raised (KeyError ["Employment_Status"]), world_of drinks_table).
Proof.
  destruct (counts_missing_column (world_of drinks_table) 1%positive drinks_table eq_refl)
    as (Hpolitical & Hcoffee & Hemployment).
  split; [|split; [|split]].
  - apply Hpolitical. apply (bool_decide_unpack _). vm_compute. exact I.
  - apply Hpolitical. apply (bool_decide_unpack _). vm_compute. exact I.
  - apply Hcoffee. apply (bool_decide_unpack _). vm_compute. exact I.
  - apply Hemployment. apply (bool_decide_unpack _). vm_compute. exact I.
Defined.

(** ** The navigation *)

(** X18: every link of the navigation bar, and the brand link, leads to one
    of the four pages and never to the 404 text; two links of the bar lead
    to the same page only when they are the same link; the brand link leads
    where [Overview] leads; and every other path, the missing path
    included, gets the 404 text. *)
Theorem navbar_links_resolve :
  (∀ href, href ∈ brand_href :: navbar.*2 →
     display_page (Some href) ≠ Text "404: Page Not Found")
  ∧ (∀ a b, a ∈ navbar.*2 → b ∈ navbar.*2 →
       display_page (Some a) = display_page (Some b) → a = b)
  ∧ display_page (Some brand_href) = display_page (Some "/page-1")
  ∧ (∀ pathname, pathname ∉ Some <$> (brand_href :: navbar.*2) →
       display_page pathname = Text "404: Page Not Found").
Proof.
  split; [|split; [|split]].
  - intros href Hin. simpl in Hin.
    repeat (apply elem_of_cons in Hin as [->|Hin]; [done|]).
    by apply elem_of_nil in Hin.
  - intros a b Ha Hb. simpl in Ha, Hb.
    repeat (apply elem_of_cons in Ha as [->|Ha];
            [repeat (apply elem_of_cons in Hb as [->|Hb]; [done|]);
             by apply elem_of_nil in Hb|]).
    by apply elem_of_nil in Ha.
  - reflexivity.
  - intros pathname Hout.
    assert (Hne : ∀ s, s ∈ brand_href :: navbar.*2 → pathname ≠ Some s).
    { intros s Hs ->. apply Hout. by apply list_elem_of_fmap_2. }
    unfold display_page.
    rewrite (bool_decide_eq_false_2 (pathname = Some "/"))
      by (apply Hne; repeat constructor).
    rewrite (bool_decide_eq_false_2 (pathname = Some "/page-1"))
      by (apply Hne; repeat constructor).
    rewrite (bool_decide_eq_false_2 (pathname = Some "/page-2"))
      by (apply Hne; repeat constructor).
    rewrite (bool_decide_eq_false_2 (pathname = Some "/page-3"))
      by (apply Hne; repeat constructor).
    rewrite (bool_decide_eq_false_2 (pathname = Some "/page-4"))
      by (apply Hne; repeat constructor).
    done.
Qed.

Lemma navbar_links_resolve_witness :
  display_page (Some "/page-3") ≠ Text "404: Page Not Found"
  ∧ display_page (Some "/page-5") = Text "404: Page Not Found"
  ∧ display_page None = Text "404: Page Not Found".
Proof.
  destruct navbar_links_resolve as (Hlink & _ & _ & Hother).
  split; [|split].
  - apply Hlink. apply (bool_decide_unpack _). vm_compute. exact I.
  - apply Hother. apply (bool_decide_unpack _). vm_compute. exact I.
  - apply Hother. apply (bool_decide_unpack _). vm_compute. exact I.
Defined.

(** ** Selecting everything *)

Lemma present_select_all (f : value → bool) vals :
  (∀ v, v ∈ vals → is_missing v = false → f v = true) →
  filter (λ v, is_missing v = false) (Pandas.select (f <$> vals) vals)
  = filter (λ v, is_missing v = false) vals.
Proof.
  induction vals as [|v vals IH]; intros Hall; [done|].
  rewrite fmap_cons, select_cons.
  assert (IH' : filter (λ v, is_missing v = false) (Pandas.select (f <$> vals) vals)
                = filter (λ v, is_missing v = false) vals).
  { apply IH. intros x Hx. apply Hall. by right. }
  rewrite (filter_cons (λ v, is_missing v = false) v vals).
  destruct (decide (is_missing v = false)) as [Hv|Hv].
  - rewrite (Hall v) by (done || left).
    rewrite (filter_cons_True (λ v, is_missing v = false)) by done. by rewrite IH'.
  - destruct (f v); [|done]. by rewrite (filter_cons_False (λ v, is_missing v = false)).
Qed.

(** X19: selecting every affiliation that occurs in the table gives the
    summary that no selection gives: lines 287-294 of
    [update_political_chart] bind the same table to [political_counts], and
    the two calls of the callback end alike. *)
Theorem update_political_chart_select_all w df T selected vals :
  heap w !! df = Some T →
  Pandas.getitem T "Political_Affiliation" = Returned vals →
  (∀ v, v ∈ vals → is_missing v = false → Pandas.isin selected v = true) →
  ∃ summary,
    run (political_counts df (Some selected)) w = (Returned summary, w)
    ∧ run (political_counts df None) w = (Returned summary, w)
    ∧ run (update_political_chart df (Some selected)) w
      = run (update_political_chart df None) w.
Proof.
  intros Hdf Hcol Hall.
  assert (Hsame : Pandas.value_counts (affiliations_counted (Some selected) vals)
                  = Pandas.value_counts (affiliations_counted None vals)).
  { unfold affiliations_counted. destruct selected as [|s l]; [done|].
    simpl nothing_selected. cbv iota. simpl default.
    unfold Pandas.value_counts. by rewrite present_select_all. }
  eexists. split; [|split].
  - rewrite (political_counts_run w df T (Some selected) vals Hdf Hcol), Hsame.
    reflexivity.
  - by rewrite (political_counts_run w df T None vals Hdf Hcol).
  - by rewrite !(update_political_chart_refused w df T _ vals).
Qed.

Lemma update_political_chart_select_all_witness :
  ∃ summary,
    run (political_counts 1%positive
           (Some [VStr "Republican"; VStr "Independent"; VStr "Democrat"]))
        (world_of survey_table) = (Returned summary, world_of survey_table)
    ∧ run (political_counts 1%positive None) (world_of survey_table)
      = (Returned summary, world_of survey_table)
    ∧ run (update_political_chart 1%positive
             (Some [VStr "Republican"; VStr "Independent"; VStr "Democrat"]))
          (world_of survey_table)
      = run (update_political_chart 1%positive None) (world_of survey_table).
Proof.
  apply (update_political_chart_select_all (world_of survey_table) 1%positive survey_table
           [VStr "Republican"; VStr "Independent"; VStr "Democrat"] _ eq_refl eq_refl).
  apply (proj1 (Forall_forall
    (λ v, is_missing v = false →
          Pandas.isin [VStr "Republican"; VStr "Independent"; VStr "Democrat"] v = true) _)).
  apply (bool_decide_unpack _). vm_compute. exact I.
Defined.

(** ** The chart of the political callback *)

(** X20: [update_political_chart] never returns a figure.  On a table that
    has the column it counts, then raises [ValueError] at the chart of line
    296, whose colour [#2E86C] has five digits; on a table without the
    column it raises [KeyError] before; either way whatever is selected, and
    the world is left as it was.  The colour of [update_age_consumption],
    [#2E86C1], is accepted. *)
Theorem update_political_chart_never_returns w df T selected :
  heap w !! df = Some T →
  run (update_political_chart df selected) w
  = (Raised (if bool_decide ("Political_Affiliation" ∈ columns T)
             then ValueError "Invalid value for the 'color' property of bar.marker"
             else KeyError ["Political_Affiliation"]), w)
  ∧ valid_colour (HexColour "2E86C") = false
  ∧ valid_colour (HexColour "2E86C1") = true.
Proof.
  intros Hdf. split; [|done].
  case_bool_decide as Hcol.
  - destruct (getitem_present T _ Hcol) as [vals Hvals].
    by apply (update_political_chart_refused w df T selected vals).
  - unfold run, update_political_chart.
    apply bind_raised. unfold political_counts.
    rewrite (bind_returned _ _ w T w) by by apply deref_returned.
    destruct (nothing_selected selected).
    + rewrite (bind_returned _ _ w T w) by done.
      by apply (count_table_missing T "Political_Affiliation").
    + apply bind_raised. apply bind_raised. unfold lift. by rewrite getitem_absent.
Qed.

Lemma update_political_chart_never_returns_witness :
  run (update_political_chart 1%positive None) (world_of survey_table)
  = (Raised (if bool_decide ("Political_Affiliation" ∈ columns survey_table)
             then ValueError "Invalid value for the 'color' property of bar.marker"
             else KeyError ["Political_Affiliation"]), world_of survey_table)
  ∧ valid_colour (HexColour "2E86C") = false
  ∧ valid_colour (HexColour "2E86C1") = true.
Proof.
  apply (update_political_chart_never_returns (world_of survey_table) 1%positive
           survey_table None).
  reflexivity.
Defined.

Example update_political_chart_survey :
  (run (update_political_chart 1%positive None) (world_of survey_table)).1
  = Raised (ValueError "Invalid value for the 'color' property of bar.marker").
Proof. vm_compute. reflexivity. Qed.
